(** * The admin dashboard of the crowdfunding page (src/app/admin/page.tsx)

    A shallow embedding of the page's decoding, deadline presentation,
    refresh and transaction-submission logic, followed by the properties
    proved about it.

    JavaScript numbers are IEEE-754 binary64 values: they are modelled by
    Rocq's primitive floats.  Values of type [any] are modelled by [value],
    the JSON-shaped fragment of JavaScript values (plus [undefined]).
    Exceptions are explicit: a computation that may throw returns a
    [result].  Effects of the page (state setters, alerts, console output,
    network requests, the wallet popup) are recorded as a trace of
    [event]s next to the page state that is threaded through. *)

From Stdlib Require Import Floats ZArith String Ascii List Bool Lia.
From Stdlib Require Import Uint63 DecimalString Sorted.
Import ListNotations.
Open Scope string_scope.

(** ** Exceptions *)

Inductive exn : Type :=
| TypeError (msg : string)
| RangeError (msg : string)
| Error (msg : string).

Inductive result (A : Type) : Type :=
| Ok (a : A)
| Throw (e : exn).
Arguments Ok {A} a.
Arguments Throw {A} e.

Definition bind {A B : Type} (r : result A) (k : A -> result B) : result B :=
  match r with
  | Ok a => k a
  | Throw e => Throw e
  end.

Notation "x <- r ;; k" := (bind r (fun x => k))
  (at level 61, r at next level, right associativity).

(** ** JavaScript values *)

(** The values [JSON.parse] and [cvToJSON] can build, and [undefined].
    Objects are plain objects (prototype [Object.prototype]) given by the
    list of their own properties; arrays are plain arrays. *)
#[local] Unset Elimination Schemes.
Inductive value : Type :=
| VUndefined
| VNull
| VBool (b : bool)
| VNumber (x : float)
| VString (s : string)
| VArray (items : list value)
| VObject (props : list (string * value)).
#[local] Set Elimination Schemes.

Fixpoint own (props : list (string * value)) (k : string) : option value :=
  match props with
  | [] => None
  | (k', v) :: rest => if String.eqb k' k then Some v else own rest k
  end.

(** [o[k]] for a property name that no prototype defines.  Every name the
    page reads ([value], [title], [goal], [tx_status], ...) is such a name,
    and none of them is an array index or [length], so on anything but an
    object the read yields [undefined]. *)
Definition get (v : value) (k : string) : value :=
  match v with
  | VObject props =>
      match own props k with
      | Some x => x
      | None => VUndefined
      end
  | _ => VUndefined
  end.

Definition nullish (v : value) : bool :=
  match v with
  | VUndefined | VNull => true
  | _ => false
  end.

(** [v.k]: throws on [undefined] and [null]. *)
Definition member (v : value) (k : string) : result value :=
  if nullish v
  then Throw (TypeError "Cannot read properties of undefined or null")
  else Ok (get v k).

(** [v?.k] *)
Definition opt_member (v : value) (k : string) : value :=
  if nullish v then VUndefined else get v k.

(** [a ?? b] *)
Definition coalesce (a b : value) : value :=
  if nullish a then b else a.

(** ** Numbers *)

(** The mathematical integer held by a float, when it holds one of
    magnitude below 2^53. *)
Definition integer_of (x : float) : option Z :=
  match Prim2SF x with
  | S754_zero _ => Some 0%Z
  | S754_finite s m e =>
      if (0 <? e)%Z then None
      else
        let d := Z.pow 2 (- e) in
        if (Z.pos m mod d =? 0)%Z
        then Some (if s then (- (Z.pos m / d))%Z else (Z.pos m / d)%Z)
        else None
  | _ => None
  end.

Definition float_of_Z (z : Z) : float :=
  if (z <? 0)%Z
  then PrimFloat.opp (PrimFloat.of_uint63 (Uint63.of_Z (- z)))
  else PrimFloat.of_uint63 (Uint63.of_Z z).

Definition float_of_nat (n : nat) : float := float_of_Z (Z.of_nat n).

Definition decimal (z : Z) : string := NilZero.string_of_int (Z.to_int z).

Definition is_digit (c : ascii) : bool :=
  let n := nat_of_ascii c in (48 <=? n)%nat && (n <=? 57)%nat.

Fixpoint all_digits (s : string) : bool :=
  match s with
  | EmptyString => true
  | String c rest => is_digit c && all_digits rest
  end.

Fixpoint digits_value (acc : Z) (s : string) : Z :=
  match s with
  | EmptyString => acc
  | String c rest => digits_value (10 * acc + Z.of_nat (nat_of_ascii c - 48))%Z rest
  end.

(** The part of the JavaScript runtime the page relies on and that is given
    from outside: the conversions between numbers and strings beyond plain
    integers, and the locale-dependent rendering of a date. *)
Class Host : Type := {
  (** [Number(s)] for a string [s] *)
  StringToNumber : string -> float;
  (** [x.toString()] for a number [x] *)
  NumberToString : float -> string;
  (** [new Date(t).toLocaleString()] for a time value [t] in milliseconds *)
  Date_toLocaleString : float -> string;
}.

Section Runtime.
Context {host : Host}.

(** [Number(s)]: the empty string is 0 and a run of at most fifteen decimal
    digits is the integer it spells; the host decides the rest. *)
Definition string_to_number (s : string) : float :=
  if String.eqb s "" then 0%float
  else if all_digits s && (String.length s <=? 15)%nat
       then float_of_Z (digits_value 0 s)
       else StringToNumber s.

(** [String(x)] for a number: NaN, the infinities and the integers below
    2^53 are spelled out; the host decides the rest. *)
Definition number_to_string (x : float) : string :=
  match Prim2SF x with
  | S754_nan => "NaN"
  | S754_infinity false => "Infinity"
  | S754_infinity true => "-Infinity"
  | _ =>
      match integer_of x with
      | Some z => decimal z
      | None => NumberToString x
      end
  end.

(** ** Conversions *)

(** [Boolean(v)] *)
Definition to_boolean (v : value) : bool :=
  match v with
  | VUndefined | VNull => false
  | VBool b => b
  | VNumber x => negb (PrimFloat.eqb x 0 || is_nan x)
  | VString s => negb (String.eqb s "")
  | VArray _ | VObject _ => true
  end.

Definition has_own (props : list (string * value)) (k : string) : bool :=
  match own props k with
  | Some _ => true
  | None => false
  end.

Definition cannot_convert : exn :=
  TypeError "Cannot convert object to primitive value".

(** [String(v)].  An array is joined with commas (holes of [undefined] and
    [null] are empty).  A plain object inherits [Object.prototype.toString]
    unless it has an own property named [toString]: such a property holds
    data, which is not callable, and [valueOf] returns the object itself,
    so the conversion to a primitive throws. *)
Fixpoint to_string (v : value) : result string :=
  match v with
  | VUndefined => Ok "undefined"
  | VNull => Ok "null"
  | VBool true => Ok "true"
  | VBool false => Ok "false"
  | VNumber x => Ok (number_to_string x)
  | VString s => Ok s
  | VArray items =>
      (fix join (l : list value) : result string :=
         match l with
         | [] => Ok ""
         | x :: rest =>
             s <- (if nullish x then Ok "" else to_string x) ;;
             match rest with
             | [] => Ok s
             | _ => r <- join rest ;; Ok (s ++ "," ++ r)
             end
         end) items
  | VObject props =>
      if has_own props "toString" then Throw cannot_convert
      else Ok "[object Object]"
  end.

(** [Number(v)] *)
Definition to_number (v : value) : result float :=
  match v with
  | VUndefined => Ok nan
  | VNull => Ok 0%float
  | VBool true => Ok 1%float
  | VBool false => Ok 0%float
  | VNumber x => Ok x
  | VString s => Ok (string_to_number s)
  | VArray _ | VObject _ => s <- to_string v ;; Ok (string_to_number s)
  end.

(** ** Decoding campaigns *)

Record Campaign : Type := {
  id : nat;
  title : string;
  description : string;
  goal : float;
  total : float;
  deadline : float;
  owner : value;
  active : bool;
  successful : bool;
  withdrawn : bool;
  finalized : bool;
}.

Record GlobalStats : Type := {
  totalRaised : float;
  totalContributors : float;
  activeCampaigns : float;
  totalCampaigns : float;
}.

Definition jNum (cv : value) : result float :=
  to_number (coalesce (opt_member cv "value") (VNumber 0)).

Definition jStr (cv : value) : result string :=
  to_string (coalesce (opt_member cv "value") (VString "")).

Definition jBool (cv : value) : bool :=
  to_boolean (coalesce (opt_member cv "value") (VBool false)).

(** [s || t] on strings *)
Definition or_string (s t : string) : string :=
  if String.eqb s "" then t else s.

(** [a || b] on values *)
Definition or_value (a b : value) : value :=
  if to_boolean a then a else b.

(** The fallback title and description.  The source writes it between
    single quotes, so the text is taken literally. *)
Definition placeholder : string := "Campaign ${id}".

(** [json?.value?.value ?? {}] *)
Definition campaign_data (json : value) : value :=
  coalesce (opt_member (opt_member json "value") "value") (VObject []).

Definition parseCampaign (json : value) (id : nat) : result Campaign :=
  let d := campaign_data json in
  f_title <- member d "title" ;;
  s_title <- jStr f_title ;;
  f_description <- member d "description" ;;
  s_description <- jStr f_description ;;
  f_goal <- member d "goal" ;;
  n_goal <- jNum f_goal ;;
  f_total <- member d "total" ;;
  n_total <- jNum f_total ;;
  f_deadline <- member d "deadline" ;;
  n_deadline <- jNum f_deadline ;;
  f_owner <- member d "owner" ;;
  f_active <- member d "active" ;;
  f_successful <- member d "successful" ;;
  f_withdrawn <- member d "withdrawn" ;;
  f_finalized <- member d "finalized" ;;
  Ok {| id := id;
        title := or_string s_title placeholder;
        description := or_string s_description placeholder;
        goal := (n_goal / 1000000)%float;
        total := (n_total / 1000000)%float;
        deadline := n_deadline;
        owner := or_value (opt_member f_owner "value") (VString "");
        active := jBool f_active;
        successful := jBool f_successful;
        withdrawn := jBool f_withdrawn;
        finalized := jBool f_finalized |}.

End Runtime.

(** ** Presenting a deadline *)

Definition unixThreshold : float := 1000000000%float.

(** [!deadline || deadline <= 0] *)
Definition no_deadline (deadline : float) : bool :=
  negb (to_boolean (VNumber deadline)) || PrimFloat.leb deadline 0.

(** [currentBlockHeight && deadline >= currentBlockHeight] *)
Definition can_estimate (deadline : float) (currentBlockHeight : option float) : bool :=
  match currentBlockHeight with
  | None => false
  | Some h => to_boolean (VNumber h) && PrimFloat.leb h deadline
  end.

(** [blocksRemaining * 10 * 60 * 1000], about ten minutes per block *)
Definition estMs (deadline h : float) : float :=
  ((((deadline - h) * 10) * 60) * 1000)%float.

Section Presenter.
Context {host : Host}.

(** [formatDeadlineDisplay(deadline, currentBlockHeight)], with the value
    of [Date.now()] that the estimate reads passed as [now].  Rendering a
    date does not throw, so the handler of the source's [try] is never
    entered. *)
Definition formatDeadlineDisplay (now deadline : float)
    (currentBlockHeight : option float) : string :=
  if no_deadline deadline then "No deadline"
  else if PrimFloat.ltb unixThreshold deadline
  then Date_toLocaleString (deadline * 1000)%float
  else if can_estimate deadline currentBlockHeight
  then
    match currentBlockHeight with
    | Some h =>
        Date_toLocaleString (now + estMs deadline h)%float
          ++ " (est, block " ++ number_to_string deadline ++ ")"
    | None => "Block #" ++ number_to_string deadline
    end
  else "Block #" ++ number_to_string deadline.

End Presenter.

(** ** Rounding *)

(** [Math.round(x)]: the nearest integer, a tie going up.  NaN, the
    infinities, the zeros and the floats that already are integers are
    returned unchanged; a negative value that rounds to zero gives [-0]. *)
Definition Math_round (x : float) : float :=
  match Prim2SF x with
  | S754_finite s m e =>
      if (0 <=? e)%Z then x
      else
        let d := Z.pow 2 (- e) in
        if s
        then
          let n := ((d - 2 * Z.pos m) / (2 * d))%Z in
          if (n =? 0)%Z then PrimFloat.opp 0%float else float_of_Z n
        else float_of_Z ((2 * Z.pos m + d) / (2 * d))%Z
  | _ => x
  end.

Definition is_negative_zero (x : float) : bool :=
  match Prim2SF x with
  | S754_zero true => true
  | _ => false
  end.

(** [Math.max(a, b)] *)
Definition Math_max (a b : float) : float :=
  if is_nan a || is_nan b then nan
  else if PrimFloat.ltb a b then b
  else if PrimFloat.ltb b a then a
  else if is_negative_zero a then b else a.

(** ** Page state and effects *)

(** The session data the wallet connector loads; the page reads only
    [user.profile.stxAddress.testnet]. *)
Record UserData : Type := {
  stxAddress_testnet : string;
}.

Record Page : Type := {
  user : option UserData;
  campaigns : list Campaign;
  globalStats : GlobalStats;
  loading : bool;
  closingCampaign : option nat;
  currentBlockHeight : option float;
}.

Definition setCampaigns (cs : list Campaign) (st : Page) : Page :=
  {| user := user st; campaigns := cs; globalStats := globalStats st;
     loading := loading st; closingCampaign := closingCampaign st;
     currentBlockHeight := currentBlockHeight st |}.

Definition setGlobalStats (g : GlobalStats) (st : Page) : Page :=
  {| user := user st; campaigns := campaigns st; globalStats := g;
     loading := loading st; closingCampaign := closingCampaign st;
     currentBlockHeight := currentBlockHeight st |}.

Definition setLoading (b : bool) (st : Page) : Page :=
  {| user := user st; campaigns := campaigns st; globalStats := globalStats st;
     loading := b; closingCampaign := closingCampaign st;
     currentBlockHeight := currentBlockHeight st |}.

Definition setClosingCampaign (c : option nat) (st : Page) : Page :=
  {| user := user st; campaigns := campaigns st; globalStats := globalStats st;
     loading := loading st; closingCampaign := c;
     currentBlockHeight := currentBlockHeight st |}.

Inductive FungibleConditionCode : Type :=
| Equal | Greater | GreaterEqual | Less | LessEqual.

Inductive PostConditionMode : Type :=
| Allow | Deny.

(** What [makeContractSTXPostCondition] is given. *)
Record PostCondition : Type := {
  pc_address : string;
  pc_contractName : string;
  pc_code : FungibleConditionCode;
  pc_amount : string;
}.

(** What [openContractCall] is given, the two callbacks apart. *)
Record ContractCall : Type := {
  contractAddress : string;
  contractName : string;
  functionName : string;
  functionArgs : list nat;
  postConditionMode : option PostConditionMode;
  postConditions : list PostCondition;
}.

Inductive event : Type :=
| SetLoading (b : bool)
| SetGlobalStats (g : GlobalStats)
| SetCampaigns (cs : list Campaign)
| SetClosingCampaign (c : option nat)
| ReadOnlyCall (fn : string) (arg : option nat)
| StatusRequest (txId : string)
| ClearInterval
| OpenContractCall (call : ContractCall)
| Alert (msg : string)
| ConfirmPrompt (msg : string)
| ConsoleError (label : string) (e : exn)
| ConsoleWarn (label : string) (e : exn)
| ConsoleLog (msg : string).

(** The world outside the page.  A read-only call is answered by the JSON
    form of its Clarity value ([cvToJSON] of the response) or is rejected;
    the [n]-th lookup of a transaction is answered by the parsed body or
    fails; the user answers the confirmation prompt; the wallet throws,
    is dismissed, or broadcasts and hands back a transaction id. *)
Inductive wallet_outcome : Type :=
| WalletThrows (e : exn)
| WalletCancelled
| WalletFinished (txId : string).

Record World : Type := {
  read_only : string -> option nat -> result value;
  tx_lookup : string -> nat -> result value;
  confirm : string -> bool;
  wallet : ContractCall -> wallet_outcome;
}.

Definition CONTRACT_ADDRESS : string := "ST1RVN5QPTET1RV9BJQX35JQWJFYG8YNHQEY5QN24".
Definition CONTRACT_NAME : string := "crowdfunding".

(** [Promise.all]: the values in order, or a rejection (the first one in
    the order of the list). *)
Fixpoint promise_all {A : Type} (l : list (result A)) : result (list A) :=
  match l with
  | [] => Ok []
  | r :: rest =>
      match r with
      | Throw e => Throw e
      | Ok a =>
          match promise_all rest with
          | Throw e => Throw e
          | Ok l' => Ok (a :: l')
          end
      end
  end.

Fixpoint map_index {A B : Type} (f : A -> nat -> B) (index : nat) (l : list A) : list B :=
  match l with
  | [] => []
  | a :: rest => f a index :: map_index f (S index) rest
  end.

(** The indices visited by [for (let i = 0; i < count; i++)], from [i] on.
    [None] when the loop is still running after [fuel] rounds. *)
Fixpoint campaign_indices (fuel : nat) (i : nat) (count : float) : option (list nat) :=
  match fuel with
  | O => None
  | S fuel' =>
      if PrimFloat.ltb (float_of_nat i) count
      then
        match campaign_indices fuel' (S i) count with
        | Some l => Some (i :: l)
        | None => None
        end
      else Some []
  end.

Definition stats_functions : list string :=
  ["get-total-stx"; "get-total-contributors"; "get-active-campaigns";
   "get-campaign-count"].

Definition is_read_only_call (ev : event) : bool :=
  match ev with
  | ReadOnlyCall _ _ => true
  | _ => false
  end.

Definition is_status_request (ev : event) : bool :=
  match ev with
  | StatusRequest _ => true
  | _ => false
  end.

Definition is_network_event (ev : event) : bool :=
  match ev with
  | ReadOnlyCall _ _ | StatusRequest _ | OpenContractCall _ => true
  | _ => false
  end.

Section Dashboard.
Context {host : Host}.

(** [Number(cvToJSON(cv).value)] *)
Definition stat_number (json : value) : result float :=
  v <- member json "value" ;; to_number v.

(** The argument of [setGlobalStats], and the campaign count. *)
Definition decode_stats (l : list value) : result GlobalStats :=
  match l with
  | [totalSTX; totalContributors; activeCampaigns; campaignCount] =>
      a <- stat_number totalSTX ;;
      b <- stat_number totalContributors ;;
      c <- stat_number activeCampaigns ;;
      d <- stat_number campaignCount ;;
      Ok {| totalRaised := (a / 1000000)%float;
            totalContributors := b;
            activeCampaigns := c;
            totalCampaigns := d |}
  | _ => Throw (TypeError "undefined is not iterable")
  end.

(** The callback of [campaignResults.map] *)
Definition decode_one (json : value) (index : nat) : option Campaign * list event :=
  match parseCampaign json index with
  | Ok parsed => (Some parsed, [])
  | Throw error =>
      (None,
       [ConsoleWarn ("Failed to parse campaign " ++ decimal (Z.of_nat index) ++ ":") error])
  end.

Fixpoint drop_null (l : list (option Campaign)) : list Campaign :=
  match l with
  | [] => []
  | Some c :: rest => c :: drop_null rest
  | None :: rest => drop_null rest
  end.

(** [campaignResults.map(...).filter(campaign => campaign !== null)], with
    what the callbacks wrote to the console. *)
Definition decode_campaigns (campaignResults : list value) : list Campaign * list event :=
  let mapped := map_index decode_one 0 campaignResults in
  (drop_null (map fst mapped), concat (map snd mapped)).

Definition fetch_error : string := "Error fetching blockchain data:".

(** The [catch] and [finally] blocks of [fetchAllData]. *)
Definition fetch_failed (st : Page) (tr : list event) (error : exn) : Page * list event :=
  (setLoading false st, (tr ++ [ConsoleError fetch_error error; SetLoading false])%list).

(** [fetchAllData()].  [None] when the loop over the campaign indices does
    not finish within [fuel] rounds.  The loop bound is the same
    [Number(cvToJSON(campaignCount).value)] that was stored as
    [totalCampaigns]. *)
Definition fetchAllData (fuel : nat) (w : World) (st : Page) : option (Page * list event) :=
  let st := setLoading true st in
  let tr := SetLoading true :: map (fun fn => ReadOnlyCall fn None) stats_functions in
  match promise_all (map (fun fn => read_only w fn None) stats_functions) with
  | Throw error => Some (fetch_failed st tr error)
  | Ok answers =>
      match decode_stats answers with
      | Throw error => Some (fetch_failed st tr error)
      | Ok stats =>
          let st := setGlobalStats stats st in
          let tr := (tr ++ [SetGlobalStats stats])%list in
          match campaign_indices fuel 0 (totalCampaigns stats) with
          | None => None
          | Some indices =>
              let tr := (tr ++ map (fun i => ReadOnlyCall "get-campaign" (Some i)) indices)%list in
              match promise_all (map (fun i => read_only w "get-campaign" (Some i)) indices) with
              | Throw error => Some (fetch_failed st tr error)
              | Ok campaignResults =>
                  let (fetchedCampaigns, warnings) := decode_campaigns campaignResults in
                  Some (setLoading false (setCampaigns fetchedCampaigns st),
                        (tr ++ warnings ++ [SetCampaigns fetchedCampaigns; SetLoading false])%list)
              end
          end
      end
  end.

End Dashboard.

(** ** Submitting a transaction *)

Definition maxRetries : nat := 15.

(** [v === s] for a string literal [s] *)
Definition is_string (v : value) (s : string) : bool :=
  match v with
  | VString t => String.eqb t s
  | _ => false
  end.

Definition timed_out : exn := Error "Transaction timed out".

(** The interval callback of [waitForTransaction] in the runs in which
    every lookup is answered before the timer, set to five seconds, fires
    again: the callbacks then run one after the other, tick after tick,
    until one clears the interval.  [retries] is the shared counter, which
    in these runs also is the number of lookups already made.  The outcome
    is that of the promise: [Ok tt] when resolved, [Throw] when rejected.
    [None] when the interval is still live after [fuel] ticks.  A run in
    which the timer fires while a lookup is still waiting is not a run of
    [poll]. *)
Fixpoint poll (fuel : nat) (w : World) (txId : string) (retries : nat)
    : option (result unit * list event) :=
  match fuel with
  | O => None
  | S fuel' =>
      match (data <- tx_lookup w txId retries ;; member data "tx_status") with
      | Throw error => Some (Throw error, [StatusRequest txId; ClearInterval])
      | Ok tx_status =>
          if is_string tx_status "success" || is_string tx_status "failed"
          then Some (Ok tt, [StatusRequest txId; ClearInterval])
          else if (maxRetries <=? retries)%nat
          then Some (Throw timed_out, [StatusRequest txId; ClearInterval])
          else
            match poll fuel' w txId (S retries) with
            | Some (outcome, tr) => Some (outcome, StatusRequest txId :: tr)
            | None => None
            end
      end
  end.

Definition waitForTransaction (fuel : nat) (w : World) (txId : string)
    : option (result unit * list event) :=
  poll fuel w txId 0.

(** [campaigns.find(c => c.id === campaignId)] *)
Definition find_campaign (cs : list Campaign) (campaignId : nat) : option Campaign :=
  find (fun c => Nat.eqb (id c) campaignId) cs.

Definition goalReached (campaign : Campaign) : bool :=
  PrimFloat.leb (goal campaign) (total campaign).

Definition chosen_function (campaign : Campaign) : string :=
  if goalReached campaign then "withdraw-funds" else "finalize-failure".

Definition confirmationMessage (campaign : Campaign) : string :=
  if goalReached campaign
  then "This campaign has reached its goal. Are you sure you want to withdraw the funds and close it?"
  else "This campaign has not reached its goal. Are you sure you want to close it so contributors can get refunds?".

Definition isWithdraw (campaign : Campaign) : bool :=
  String.eqb (chosen_function campaign) "withdraw-funds".

Definition withdrawAmountMicro (campaign : Campaign) : float :=
  if isWithdraw campaign
  then Math_max 0 (Math_round (total campaign * 1000000))%float
  else 0%float.

Section Submitter.
Context {host : Host}.

(** The text of an amount the library's builder reads.  The builder turns
    the text into a [BigInt]; the text here is that of a number that is not
    negative, so it is a run of decimal digits, which is read, or it is an
    exponent form such as [1e+21] or it is [Infinity], which are refused
    with a [RangeError]. *)
Definition integer_literal (amount : string) : bool :=
  negb (String.eqb amount "") && all_digits amount.

Definition invalid_amount (amount : string) : exn :=
  RangeError ("Invalid value. String integer '" ++ amount ++ "' is not finite.").

(** [makeContractSTXPostCondition(address, contractName, code, amount)] *)
Definition makeContractSTXPostCondition
    (address contractName : string) (code : FungibleConditionCode) (amount : string)
    : result PostCondition :=
  if integer_literal amount
  then Ok {| pc_address := address;
             pc_contractName := contractName;
             pc_code := code;
             pc_amount := amount |}
  else Throw (invalid_amount amount).

(** The [postConditions] constant of [handleCloseCampaign] *)
Definition close_postConditions (campaign : Campaign) : result (list PostCondition) :=
  if isWithdraw campaign
  then pc <- makeContractSTXPostCondition CONTRACT_ADDRESS CONTRACT_NAME LessEqual
               (number_to_string (withdrawAmountMicro campaign)) ;;
       Ok [pc]
  else Ok [].

(** The argument of [openContractCall] that [handleCloseCampaign] builds,
    or what building it throws. *)
Definition close_call (campaign : Campaign) (campaignId : nat) : result ContractCall :=
  postConditions <- close_postConditions campaign ;;
  Ok {| contractAddress := CONTRACT_ADDRESS;
        contractName := CONTRACT_NAME;
        functionName := chosen_function campaign;
        functionArgs := [campaignId];
        postConditionMode := if isWithdraw campaign then Some Allow else None;
        postConditions := postConditions |}.

Definition broadcast_notice : string :=
  "Transaction broadcasted! Waiting for confirmation...".
Definition success_notice : string := "Campaign finalized successfully!".
Definition failure_notice : string :=
  "Transaction confirmation failed. Please check the explorer.".
Definition connect_notice : string := "Please connect your wallet first".
Definition owner_notice : string :=
  "Only the campaign owner can finalize this campaign".

(** The [onFinish] callback given to the wallet. *)
Definition onFinish (fuel : nat) (w : World) (st : Page) (txId : string)
    : option (Page * list event) :=
  match waitForTransaction fuel w txId with
  | None => None
  | Some (Throw error, polled) =>
      Some (st,
            (Alert broadcast_notice :: polled
             ++ [ConsoleError "Transaction confirmation failed:" error;
                 Alert failure_notice])%list)
  | Some (Ok _, polled) =>
      match fetchAllData fuel w st with
      | None => None
      | Some (st', refreshed) =>
          Some (st',
                (Alert broadcast_notice :: polled ++ refreshed
                 ++ [Alert success_notice])%list)
      end
  end.

Definition finalize_notice : string :=
  "Failed to finalize campaign. Please try again.".

(** [handleCloseCampaign(campaignId)], followed by the callback the wallet
    fires.  Building the call and opening the wallet are both inside the
    [try]: what either throws is logged and reported by an alert, and the
    [finally] clears the mark in every case. *)
Definition handleCloseCampaign (fuel : nat) (w : World) (st : Page) (campaignId : nat)
    : option (Page * list event) :=
  match user st with
  | None => Some (st, [Alert connect_notice])
  | Some u =>
      match find_campaign (campaigns st) campaignId with
      | None => Some (st, [])
      | Some campaign =>
          if negb (is_string (owner campaign) (stxAddress_testnet u))
          then Some (st, [Alert owner_notice])
          else if negb (confirm w (confirmationMessage campaign))
          then Some (st, [ConfirmPrompt (confirmationMessage campaign)])
          else
            let st := setClosingCampaign None (setClosingCampaign (Some campaignId) st) in
            match close_call campaign campaignId with
            | Throw error =>
                Some (st,
                      [ConfirmPrompt (confirmationMessage campaign);
                       SetClosingCampaign (Some campaignId);
                       ConsoleError "Failed to finalize campaign:" error;
                       Alert finalize_notice;
                       SetClosingCampaign None])
            | Ok call =>
                let tr := [ConfirmPrompt (confirmationMessage campaign);
                           SetClosingCampaign (Some campaignId);
                           OpenContractCall call] in
                match wallet w call with
                | WalletThrows error =>
                    Some (st,
                          (tr ++ [ConsoleError "Failed to finalize campaign:" error;
                                  Alert finalize_notice;
                                  SetClosingCampaign None])%list)
                | WalletCancelled =>
                    Some (st,
                          (tr ++ [SetClosingCampaign None;
                                  ConsoleLog "Campaign finalization cancelled"])%list)
                | WalletFinished txId =>
                    match onFinish fuel w st txId with
                    | None => None
                    | Some (st', finished) =>
                        Some (st', (tr ++ SetClosingCampaign None :: finished)%list)
                    end
                end
            end
      end
  end.

End Submitter.

(** ** A host to run the model on examples

    Outside the integers it answers NaN and a fixed text, and it renders a
    time value as its count of milliseconds. *)
Definition sample_host : Host :=
  {| StringToNumber := fun _ => nan;
     NumberToString := fun _ => "NaN";
     Date_toLocaleString := fun t =>
       match integer_of t with
       | Some z => decimal z ++ " ms"
       | None => "Invalid Date"
       end |}.

Definition field (v : value) : value := VObject [("value", v)].

(** The JSON form of [(some (tuple ...))] with the given fields. *)
Definition some_tuple (fields : list (string * value)) : value :=
  VObject [("type", VString "(optional (tuple))");
           ("value", VObject [("type", VString "(tuple)");
                              ("value", VObject fields)])].

Definition empty_page : Page :=
  {| user := None; campaigns := [];
     globalStats := {| totalRaised := 0; totalContributors := 0;
                       activeCampaigns := 0; totalCampaigns := 0 |};
     loading := true; closingCampaign := None; currentBlockHeight := None |}.

(** ** Values that convert to a string *)

(** No object with an own [toString] property is reached through arrays. *)
Fixpoint printable (v : value) : bool :=
  match v with
  | VArray items =>
      (fix all (l : list value) : bool :=
         match l with
         | [] => true
         | x :: rest => printable x && all rest
         end) items
  | VObject props => negb (has_own props "toString")
  | _ => true
  end.

(** The fields [parseCampaign] converts with [String] or [Number]. *)
Definition converted_fields : list string :=
  ["title"; "description"; "goal"; "total"; "deadline"].

Definition decodable (json : value) : bool :=
  forallb (fun k => printable (opt_member (get (campaign_data json) k) "value"))
          converted_fields.

(** A field of the raw structure is absent. *)
Definition absent (json : value) (k : string) : Prop :=
  get (campaign_data json) k = VUndefined.

(** The record [parseCampaign] builds from the five conversions. *)
Definition decoded (json : value) (id : nat) (s_title s_description : string)
    (n_goal n_total n_deadline : float) : Campaign :=
  let d := campaign_data json in
  {| id := id;
     title := or_string s_title placeholder;
     description := or_string s_description placeholder;
     goal := (n_goal / 1000000)%float;
     total := (n_total / 1000000)%float;
     deadline := n_deadline;
     owner := or_value (opt_member (get d "owner") "value") (VString "");
     active := jBool (get d "active");
     successful := jBool (get d "successful");
     withdrawn := jBool (get d "withdrawn");
     finalized := jBool (get d "finalized") |}.

(** Structural induction on values, through arrays and objects. *)
Definition value_induction (P : value -> Prop)
    (Hundefined : P VUndefined) (Hnull : P VNull)
    (Hbool : forall b, P (VBool b)) (Hnumber : forall x, P (VNumber x))
    (Hstring : forall s, P (VString s))
    (Harray : forall items, Forall P items -> P (VArray items))
    (Hobject : forall props, Forall (fun kv => P (snd kv)) props -> P (VObject props))
    : forall v, P v :=
  fix go (v : value) : P v :=
    match v with
    | VUndefined => Hundefined
    | VNull => Hnull
    | VBool b => Hbool b
    | VNumber x => Hnumber x
    | VString s => Hstring s
    | VArray items =>
        Harray items
          ((fix go_items (l : list value) : Forall P l :=
              match l with
              | [] => Forall_nil P
              | x :: rest => Forall_cons x (go x) (go_items rest)
              end) items)
    | VObject props =>
        Hobject props
          ((fix go_props (l : list (string * value)) : Forall (fun kv => P (snd kv)) l :=
              match l with
              | [] => Forall_nil _
              | kv :: rest => Forall_cons kv (go (snd kv)) (go_props rest)
              end) props)
    end.

(** ** Raw campaigns used as examples *)

(** A raw campaign with a goal and nothing else. *)
Definition goal_only : value :=
  some_tuple [("goal", field (VString "100000000"))].

(** A raw campaign that is both active and withdrawn. *)
Definition active_and_withdrawn : value :=
  some_tuple [("active", field (VBool true)); ("withdrawn", field (VBool true))].

(** A raw campaign whose title value is an object with a [toString] key. *)
Definition title_with_toString : value :=
  some_tuple [("title", field (VObject [("toString", VNull)]))].

(** ** Vocabulary of the statements *)

(** What the [n]-th lookup of a transaction reports as its status. *)
Definition reported (w : World) (txId : string) (n : nat) : result value :=
  data <- tx_lookup w txId n ;; member data "tx_status".

Definition terminal (tx_status : value) : bool :=
  is_string tx_status "success" || is_string tx_status "failed".

(** The [n]-th lookup answers, with a status that is not terminal. *)
Definition pending (w : World) (txId : string) (n : nat) : Prop :=
  exists tx_status, reported w txId n = Ok tx_status /\ terminal tx_status = false.

Definition is_open_contract_call (ev : event) : bool :=
  match ev with
  | OpenContractCall _ => true
  | _ => false
  end.

Definition polling_event (txId : string) (ev : event) : Prop :=
  ev = StatusRequest txId \/ ev = ClearInterval.


(** The events a refresh may leave in the trace. *)
Definition refresh_event (ev : event) : bool :=
  match ev with
  | SetLoading _ | SetGlobalStats _ | SetCampaigns _ | ReadOnlyCall _ _
  | ConsoleError _ _ | ConsoleWarn _ _ => true
  | _ => false
  end.


(** What a refresh leaves in the trace up to the answers of the
    statistics calls. *)
Definition stats_trace : list event :=
  SetLoading true :: map (fun fn => ReadOnlyCall fn None) stats_functions.

Definition campaign_calls (indices : list nat) : list event :=
  map (fun i => ReadOnlyCall "get-campaign" (Some i)) indices.

Section FetchVocabulary.
Context {host : Host}.

Definition stats_answers (w : World) : result (list value) :=
  promise_all (map (fun fn => read_only w fn None) stats_functions).

Definition campaign_answers (w : World) (indices : list nat) : result (list value) :=
  promise_all (map (fun i => read_only w "get-campaign" (Some i)) indices).


Definition parse_warning (index : nat) (error : exn) : event :=
  ConsoleWarn ("Failed to parse campaign " ++ decimal (Z.of_nat index) ++ ":") error.

End FetchVocabulary.


(** The guarantee attached on the withdraw path. *)
Definition transfer_at_most (amount : string) : PostCondition :=
  {| pc_address := CONTRACT_ADDRESS;
     pc_contractName := CONTRACT_NAME;
     pc_code := LessEqual;
     pc_amount := amount |}.

(** ** Worlds and pages used as examples *)

Definition uint_json (digits : string) : value :=
  VObject [("type", VString "uint"); ("value", VString digits)].

Definition tx_json (tx_status : string) : value :=
  VObject [("tx_id", VString "0xabc"); ("tx_status", VString tx_status)].

Definition alice : string := "ST2CY5V39NHDPWSXMW9QDT3HC3GD6Q6XX4CFRK9AG".

(** A campaign of Alice's with the given goal and total. *)
Definition campaign_of (goal total : float) : Campaign :=
  {| id := 0; title := "Well"; description := "A well for the village";
     goal := goal; total := total; deadline := 500;
     owner := VString alice; active := true; successful := false;
     withdrawn := false; finalized := false |}.

Definition page_of (u : option UserData) (c : Campaign) : Page :=
  {| user := u; campaigns := [c];
     globalStats := {| totalRaised := 0; totalContributors := 0;
                       activeCampaigns := 0; totalCampaigns := 0 |};
     loading := false; closingCampaign := None; currentBlockHeight := None |}.

(** A chain without campaigns, a user who confirms, a wallet that
    broadcasts, and a status endpoint that always answers [tx_status]. *)
Definition world_reporting (tx_status : string) : World :=
  {| read_only := fun _ _ => Ok (uint_json "0");
     tx_lookup := fun _ _ => Ok (tx_json tx_status);
     confirm := fun _ => true;
     wallet := fun _ => WalletFinished "0xabc" |}.

(** A chain with three campaigns, the second of which has a title that
    does not convert. *)
Definition three_campaigns : World :=
  {| read_only := fun fn arg =>
       match arg with
       | None => Ok (uint_json "3")
       | Some 1 => Ok title_with_toString
       | Some _ => Ok goal_only
       end;
     tx_lookup := fun _ _ => Ok (tx_json "pending");
     confirm := fun _ => true;
     wallet := fun _ => WalletCancelled |}.

(** A chain whose statistics arrive and whose campaign lookups fail. *)
Definition campaigns_unreachable : World :=
  {| read_only := fun fn arg =>
       match arg with
       | None =>
           if String.eqb fn "get-campaign-count" then Ok (uint_json "2")
           else Ok (uint_json "5000000")
       | Some _ => Throw (Error "Failed to fetch")
       end;
     tx_lookup := fun _ _ => Ok (tx_json "pending");
     confirm := fun _ => true;
     wallet := fun _ => WalletCancelled |}.


Definition alice_session : option UserData :=
  Some {| stxAddress_testnet := alice |}.

(** The same address in lower case. *)
Definition lowercase_session : option UserData :=
  Some {| stxAddress_testnet := "st2cy5v39nhdpwsxmw9qdt3hc3gd6q6xx4cfrk9ag" |}.


(** A status endpoint that answers [pending] twice and [success] from the
    third lookup on. *)
Definition success_at_third : World :=
  {| read_only := fun _ _ => Ok (uint_json "0");
     tx_lookup := fun _ n => Ok (tx_json (if (n <? 2)%nat then "pending" else "success"));
     confirm := fun _ => true;
     wallet := fun _ => WalletFinished "0xabc" |}.

(** A chain that cannot be reached at all. *)
Definition chain_unreachable : World :=
  {| read_only := fun _ _ => Throw (Error "Failed to fetch");
     tx_lookup := fun _ _ => Throw (Error "Failed to fetch");
     confirm := fun _ => true;
     wallet := fun _ => WalletCancelled |}.

(** ** The tip height *)

Definition setCurrentBlockHeight (h : option float) (st : Page) : Page :=
  {| user := user st; campaigns := campaigns st; globalStats := globalStats st;
     loading := loading st; closingCampaign := closingCampaign st;
     currentBlockHeight := h |}.

Definition tip_warning : string := "Failed to fetch tip height".

Section Tip.
Context {host : Host}.

(** What the body of [fetchTip]'s [try] computes from the answer of the
    info endpoint (the parsed body, or a failure of the request): the
    height to store, if any. *)
Definition tip_height (answer : result value) : result (option float) :=
  info <- answer ;;
  if to_boolean (opt_member info "stacks_tip_height")
  then
    tip <- member info "stacks_tip_height" ;;
    n <- to_number tip ;;
    Ok (Some n)
  else Ok None.

(** [fetchTip()], given the answer of the info endpoint.  The trace holds
    what it writes to the console. *)
Definition fetchTip (answer : result value) (st : Page) : Page * list event :=
  match tip_height answer with
  | Ok (Some n) => (setCurrentBlockHeight (Some n) st, [])
  | Ok None => (st, [])
  | Throw e => (st, [ConsoleWarn tip_warning e])
  end.

End Tip.

(** ** What the page shows *)

(** [c.owner === user.profile.stxAddress.testnet] *)
Definition owned_by (u : UserData) (c : Campaign) : bool :=
  is_string (owner c) (stxAddress_testnet u).

Definition userCampaigns (st : Page) : list Campaign :=
  match user st with
  | Some u => filter (owned_by u) (campaigns st)
  | None => []
  end.

Definition userActiveCampaigns (st : Page) : list Campaign :=
  filter active (userCampaigns st).

Definition userClosedCampaigns (st : Page) : list Campaign :=
  filter (fun c => negb (active c)) (userCampaigns st).

Definition otherCampaigns (st : Page) : list Campaign :=
  match user st with
  | Some u => filter (fun c => negb (owned_by u c)) (campaigns st)
  | None => []
  end.

(** [campaign.goal > 0 ? (campaign.total / campaign.goal) * 100 : 0] *)
Definition progress (campaign : Campaign) : float :=
  if PrimFloat.ltb 0 (goal campaign)
  then ((total campaign / goal campaign) * 100)%float
  else 0%float.

(** [Math.min(a, b)] *)
Definition Math_min (a b : float) : float :=
  if is_nan a || is_nan b then nan
  else if PrimFloat.ltb a b then a
  else if PrimFloat.ltb b a then b
  else if is_negative_zero a then a else b.

(** The width of the progress bar, in per cent: [Math.min(progress, 100)] *)
Definition bar_width (campaign : Campaign) : float :=
  Math_min (progress campaign) 100.

(** [closingCampaign === campaign.id] *)
Definition isClosing (st : Page) (campaign : Campaign) : bool :=
  match closingCampaign st with
  | Some n => Nat.eqb n (id campaign)
  | None => false
  end.

(** The button of a card in the list of the user's active campaigns; its
    handler is [handleCloseCampaign(onClick)]. *)
Record Button : Type := {
  text : string;
  disabled : bool;
  onClick : nat;
}.

Definition action_button (st : Page) (campaign : Campaign) : option Button :=
  if active campaign
  then
    Some
      (if successful campaign && negb (withdrawn campaign)
       then {| text := if isClosing st campaign then "Withdrawing..." else "Withdraw Funds";
               disabled := isClosing st campaign;
               onClick := id campaign |}
       else {| text :=
                 if isClosing st campaign
                 then (if PrimFloat.ltb 0 (total campaign) then "Processing..." else "Closing...")
                 else (if PrimFloat.ltb 0 (total campaign) then "Refund" else "Close");
               disabled := isClosing st campaign;
               onClick := id campaign |})
  else None.

(** The campaign every field of which is a default. *)
Definition blank_campaign (id : nat) : Campaign :=
  {| id := id; title := placeholder; description := placeholder;
     goal := 0; total := 0; deadline := 0; owner := VString "";
     active := false; successful := false; withdrawn := false;
     finalized := false |}.

(** A value on which [String] and [Number] do not call [toString]. *)
Definition primitive (v : value) : bool :=
  match v with
  | VArray _ | VObject _ => false
  | _ => true
  end.

(** The converted fields of a raw campaign hold primitives, or are absent. *)
Definition primitive_fields (json : value) : bool :=
  forallb (fun k => primitive (opt_member (get (campaign_data json) k) "value"))
          converted_fields.


(** The lookup made when the counter is [n] ends the poll with [outcome]:
    it fails, or it reports a terminal status, or it reports another
    status when the counter has reached [maxRetries]. *)
Definition settles (w : World) (txId : string) (n : nat) (outcome : result unit) : Prop :=
  match reported w txId n with
  | Throw e => outcome = Throw e
  | Ok tx_status =>
      if terminal tx_status then outcome = Ok tt
      else maxRetries <= n /\ outcome = Throw timed_out
  end.

(** The events of a poll that made [n] lookups. *)
Definition lookups (txId : string) (n : nat) : list event :=
  (repeat (StatusRequest txId) n ++ [ClearInterval])%list.

Definition is_alert (ev : event) : bool :=
  match ev with
  | Alert _ => true
  | _ => false
  end.

(** A status endpoint that answers [pending] twice and then fails. *)
Definition fails_at_third : World :=
  {| read_only := fun _ _ => Ok (uint_json "0");
     tx_lookup := fun _ n =>
       if (n <? 2)%nat then Ok (tx_json "pending") else Throw (Error "Failed to fetch");
     confirm := fun _ => true;
     wallet := fun _ => WalletFinished "0xabc" |}.


Definition is_clear_interval (ev : event) : bool :=
  match ev with
  | ClearInterval => true
  | _ => false
  end.


(** A chain whose read-only calls are answered by [null]. *)
Definition stats_unreadable : World :=
  {| read_only := fun _ _ => Ok VNull;
     tx_lookup := fun _ _ => Ok (tx_json "pending");
     confirm := fun _ => true;
     wallet := fun _ => WalletCancelled |}.

(** The JSON form of [none], the answer for a campaign that does not
    exist. *)
Definition optional_none : value :=
  VObject [("type", VString "(optional none)"); ("value", VNull)].

(** The body of the info endpoint at height 400. *)
Definition info_at_400 : value :=
  VObject [("network_id", VNumber 2147483648); ("stacks_tip_height", VNumber 400)].

(** A user who confirms and a wallet whose popup is dismissed. *)
Definition wallet_dismissed : World :=
  {| read_only := fun _ _ => Ok (uint_json "0");
     tx_lookup := fun _ _ => Ok (tx_json "pending");
     confirm := fun _ => true;
     wallet := fun _ => WalletCancelled |}.


Definition is_set_loading (ev : event) : bool :=
  match ev with
  | SetLoading _ => true
  | _ => false
  end.


(** ** The interval of [waitForTransaction], moment by moment

    [setInterval] starts the callback every five seconds, whether or not
    the callbacks started before have been answered.  A run of the interval
    is given by its moments in the order in which they happen: the timer
    fires and the callback sends its request, or the request sent [n]-th
    (counting from 0) is answered and its callback goes on from the
    [await].  [poll] above is the run in which every request is answered
    before the timer fires again. *)
Inductive moment : Type :=
| Tick
| Answer (n : nat).

Record Interval : Type := {
  (** the counter [retries] *)
  iv_retries : nat;
  (** the timer has not been cleared *)
  iv_live : bool;
  (** the number of requests sent *)
  iv_sent : nat;
  (** the requests sent and not answered yet *)
  iv_waiting : list nat;
  (** the promise: pending, or settled by the first [resolve] or [reject] *)
  iv_promise : option (result unit);
  iv_log : list event;
}.

Definition interval_start : Interval :=
  {| iv_retries := 0; iv_live := true; iv_sent := 0; iv_waiting := [];
     iv_promise := None; iv_log := [] |}.

(** [resolve()] and [reject(e)]: a settled promise stays as it is. *)
Definition settle (outcome : result unit) (promise : option (result unit))
    : option (result unit) :=
  match promise with
  | Some _ => promise
  | None => Some outcome
  end.

(** The timer fires: a cleared timer does not; a live one starts the
    callback, which sends its request and waits. *)
Definition tick (txId : string) (s : Interval) : Interval :=
  if iv_live s
  then {| iv_retries := iv_retries s; iv_live := true;
          iv_sent := S (iv_sent s);
          iv_waiting := (iv_waiting s ++ [iv_sent s])%list;
          iv_promise := iv_promise s;
          iv_log := (iv_log s ++ [StatusRequest txId])%list |}
  else s.

(** [clearInterval(interval)] followed by settling the promise. *)
Definition clear_and_settle (outcome : result unit) (retries : nat) (waiting : list nat)
    (s : Interval) : Interval :=
  {| iv_retries := retries; iv_live := false; iv_sent := iv_sent s;
     iv_waiting := waiting;
     iv_promise := settle outcome (iv_promise s);
     iv_log := (iv_log s ++ [ClearInterval])%list |}.

(** The request sent [n]-th is answered and its callback runs to its end. *)
Definition answer (w : World) (txId : string) (n : nat) (s : Interval) : Interval :=
  if existsb (Nat.eqb n) (iv_waiting s)
  then
    let waiting := filter (fun m => negb (Nat.eqb n m)) (iv_waiting s) in
    match (data <- tx_lookup w txId n ;; member data "tx_status") with
    | Throw error => clear_and_settle (Throw error) (iv_retries s) waiting s
    | Ok tx_status =>
        if is_string tx_status "success" || is_string tx_status "failed"
        then clear_and_settle (Ok tt) (S (iv_retries s)) waiting s
        else if (maxRetries <=? iv_retries s)%nat
        then clear_and_settle (Throw timed_out) (S (iv_retries s)) waiting s
        else {| iv_retries := S (iv_retries s); iv_live := iv_live s;
                iv_sent := iv_sent s; iv_waiting := waiting;
                iv_promise := iv_promise s; iv_log := iv_log s |}
    end
  else s.

Definition moment_step (w : World) (txId : string) (s : Interval) (m : moment) : Interval :=
  match m with
  | Tick => tick txId s
  | Answer n => answer w txId n s
  end.

Definition interval_run (w : World) (txId : string) (moments : list moment) : Interval :=
  fold_left (moment_step w txId) moments interval_start.

(** The rounds [first], ..., [first + k - 1] of a run in which every
    request is answered before the timer fires again. *)
Definition rounds_in_turn (first k : nat) : list moment :=
  flat_map (fun n => [Tick; Answer n]) (seq first k).

Definition in_turn (k : nat) : list moment := rounds_in_turn 0 k.

(** [k] rounds of a run in which every answer arrives just after the timer
    has fired once more. *)
Definition one_behind (k : nat) : list moment :=
  Tick :: in_turn k.

(** The interval after [i] rounds answered in turn, none of which ended
    the poll. *)
Definition still_polling (txId : string) (i : nat) : Interval :=
  {| iv_retries := i; iv_live := true; iv_sent := i; iv_waiting := [];
     iv_promise := None; iv_log := repeat (StatusRequest txId) i |}.

(** ** A host that reads and spells the large integers

    [Number] of a run of digits of any length is the nearest double, and
    [toString] of a double that holds an integer of 2^53 or more is the
    shortest run of digits that reads back as it, in exponent form from
    10^21 on. *)

(** The integer nearest to the positive integer [z] that a double holds,
    ties going to the even significand. *)
Definition nearest_double (z : Z) : Z :=
  let sh := (Z.log2 z - 52)%Z in
  if (sh <=? 0)%Z then z
  else
    let q := Z.shiftr z sh in
    let r := (z - Z.shiftl q sh)%Z in
    let half := Z.shiftl 1 (sh - 1) in
    let q' := if (half <? r)%Z || ((r =? half)%Z && Z.odd q) then (q + 1)%Z else q in
    Z.shiftl q' sh.

(** The double nearest to a positive integer. *)
Definition double_of_integer (z : Z) : float :=
  let sh := (Z.log2 z - 52)%Z in
  if (sh <=? 0)%Z then float_of_Z z
  else Z.ldexp (float_of_Z (Z.shiftr (nearest_double z) sh)) sh.

(** The digits [s], [k] of them, and the power of ten [e] such that
    [s * 10^e] reads back as [z], when there are such; [n] is the number of
    digits of [z]. *)
Definition reads_back (z n k : Z) : option (Z * Z) :=
  let p := (10 ^ (n - k))%Z in
  let lo := (z / p)%Z in
  let hi := (lo + 1)%Z in
  let pick c := if (c =? 10 ^ k)%Z then (1%Z, n) else (c, (n - k)%Z) in
  match (nearest_double (lo * p) =? z)%Z, (nearest_double (hi * p) =? z)%Z with
  | true, true => Some (pick (if (z - lo * p <=? hi * p - z)%Z then lo else hi))
  | true, false => Some (pick lo)
  | false, true => Some (pick hi)
  | false, false => None
  end.

Fixpoint shortest_digits (fuel : nat) (z n k : Z) : Z * Z :=
  match fuel with
  | O => (z, 0%Z)
  | S fuel' =>
      match reads_back z n k with
      | Some se => se
      | None => shortest_digits fuel' z n (k + 1)
      end
  end.

Fixpoint zeros (n : nat) : string :=
  match n with
  | O => ""
  | S n' => "0" ++ zeros n'
  end.

(** [z.toString()] for a positive integer [z] that a double holds *)
Definition spell_integer (z : Z) : string :=
  let n := Z.of_nat (String.length (decimal z)) in
  let (s, e) := shortest_digits (Z.to_nat n) z n 1 in
  let d := decimal s in
  let places := (Z.of_nat (String.length d) + e)%Z in
  if (places <=? 21)%Z then d ++ zeros (Z.to_nat e)
  else
    match d with
    | String c (String c' rest) => String c ("." ++ String c' rest)
    | _ => d
    end ++ "e+" ++ decimal (places - 1).

Definition wide_host : Host :=
  {| StringToNumber := fun s =>
       if all_digits s then double_of_integer (digits_value 0 s) else nan;
     NumberToString := fun x =>
       match Prim2SF x with
       | S754_finite false m e =>
           if (0 <=? e)%Z then spell_integer (Z.pos m * 2 ^ e) else "NaN"
       | _ => "NaN"
       end;
     Date_toLocaleString := fun t =>
       match integer_of t with
       | Some z => decimal z ++ " ms"
       | None => "Invalid Date"
       end |}.



Definition is_set_closing (ev : event) : bool :=
  match ev with
  | SetClosingCampaign _ => true
  | _ => false
  end.

(** The amount text on the withdraw path. *)
Definition cap_text {host : Host} (campaign : Campaign) : string :=
  number_to_string (Math_max 0 (Math_round (total campaign * 1000000))).


(** The two calls [handleCloseCampaign] can build. *)
Definition withdraw_call (campaignId : nat) (amount : string) : ContractCall :=
  {| contractAddress := CONTRACT_ADDRESS;
     contractName := CONTRACT_NAME;
     functionName := "withdraw-funds";
     functionArgs := [campaignId];
     postConditionMode := Some Allow;
     postConditions := [transfer_at_most amount] |}.

Definition failure_call (campaignId : nat) : ContractCall :=
  {| contractAddress := CONTRACT_ADDRESS;
     contractName := CONTRACT_NAME;
     functionName := "finalize-failure";
     functionArgs := [campaignId];
     postConditionMode := None;
     postConditions := [] |}.

(** A campaign of Alice's that the chain flags as successful while its
    total, 50, is below its goal, 100. *)
Definition flagged_successful : Campaign :=
  {| id := 0; title := "Well"; description := "A well for the village";
     goal := 100; total := 50; deadline := 500;
     owner := VString alice; active := true; successful := true;
     withdrawn := false; finalized := false |}.

(** The label of the button of a card when no closing is under way. *)
Definition idle_label (campaign : Campaign) : string :=
  if successful campaign && negb (withdrawn campaign) then "Withdraw Funds"
  else if PrimFloat.ltb 0 (total campaign) then "Refund" else "Close".


(** The interval, one answer behind the timer, after [i] answers none of
    which ended the poll: request [i] is waiting. *)
Definition polling_behind (txId : string) (i : nat) : Interval :=
  {| iv_retries := i; iv_live := true; iv_sent := S i; iv_waiting := [i];
     iv_promise := None; iv_log := repeat (StatusRequest txId) (S i) |}.


(** * Properties *)

(** ** Conversions *)

Section ConversionFacts.
Context {host : Host}.

Lemma bind_ok {A B : Type} (r : result A) (k : A -> result B) (b : B) :
  bind r k = Ok b -> exists a, r = Ok a /\ k a = Ok b.
Proof.
  destruct r as [a | e]; simpl; intros H; [eauto | discriminate].
Qed.

Lemma nullish_printable (v : value) : nullish v = true -> printable v = true.
Proof. destruct v; simpl; congruence. Qed.

(** [String(v)] returns exactly on the printable values. *)
Lemma to_string_returns (v : value) :
  printable v = true <-> exists s, to_string v = Ok s.
Proof.
  induction v as [ | | b | x | s | items IH | props _] using value_induction;
    simpl; try (split; [intros _; eexists; reflexivity | reflexivity]).
  - destruct b; split; eauto.
  - induction IH as [ | x rest Hx _ IHrest]; [split; eauto | ].
    split.
    + intros H. apply andb_prop in H as [Hp Hrest].
      apply IHrest in Hrest as [r Hr].
      destruct (nullish x) eqn:Hn; simpl.
      * destruct rest; [eauto | rewrite Hr; simpl; eauto].
      * apply Hx in Hp as [s Hs]. rewrite Hs; simpl.
        destruct rest; [eauto | rewrite Hr; simpl; eauto].
    + intros [s Hs]. apply bind_ok in Hs as [s1 [H1 H2]].
      apply andb_true_intro; split.
      * destruct (nullish x) eqn:Hn; [now apply nullish_printable | ].
        apply Hx; eauto.
      * apply IHrest. destruct rest; [simpl; eauto | ].
        apply bind_ok in H2 as [r [Hr _]]. eauto.
  - destruct (has_own props "toString"); simpl; split; eauto;
      try discriminate; intros [s Hs]; discriminate.
Qed.

Lemma to_number_returns (v : value) :
  printable v = true <-> exists x, to_number v = Ok x.
Proof.
  destruct v as [ | | b | x | s | items | props];
    try (simpl; split; [intros _; eexists; reflexivity | reflexivity]).
  - destruct b; simpl; split; eauto.
  - rewrite to_string_returns. unfold to_number. split.
    + intros [s Hs]. rewrite Hs. simpl. eauto.
    + intros [x Hx]. apply bind_ok in Hx as [s [Hs _]]. eauto.
  - rewrite to_string_returns. unfold to_number. split.
    + intros [s Hs]. rewrite Hs. simpl. eauto.
    + intros [x Hx]. apply bind_ok in Hx as [s [Hs _]]. eauto.
Qed.

Lemma coalesce_printable (v dflt : value) :
  nullish dflt = false -> printable dflt = true ->
  printable (coalesce v dflt) = printable v.
Proof.
  intros _ Hd. unfold coalesce. destruct (nullish v) eqn:Hn; [ | reflexivity].
  now rewrite Hd, nullish_printable.
Qed.

Lemma jStr_returns (cv : value) :
  printable (opt_member cv "value") = true <-> exists s, jStr cv = Ok s.
Proof.
  unfold jStr. rewrite <- to_string_returns.
  now rewrite coalesce_printable.
Qed.

Lemma jNum_returns (cv : value) :
  printable (opt_member cv "value") = true <-> exists x, jNum cv = Ok x.
Proof.
  unfold jNum. rewrite <- to_number_returns.
  now rewrite coalesce_printable.
Qed.

Lemma campaign_data_object (json : value) : nullish (campaign_data json) = false.
Proof.
  unfold campaign_data, coalesce.
  destruct (nullish (opt_member (opt_member json "value") "value")) eqn:H;
    [reflexivity | exact H].
Qed.

(** No property read of [parseCampaign] throws. *)
Lemma member_campaign_data (json : value) (k : string) :
  member (campaign_data json) k = Ok (get (campaign_data json) k).
Proof. unfold member. now rewrite campaign_data_object. Qed.

End ConversionFacts.

(** ** Decoding *)

Section DecodeFacts.
Context {host : Host}.

Lemma parseCampaign_spec (json : value) (id : nat) (c : Campaign) :
  parseCampaign json id = Ok c <->
  exists s_title s_description n_goal n_total n_deadline,
    jStr (get (campaign_data json) "title") = Ok s_title /\
    jStr (get (campaign_data json) "description") = Ok s_description /\
    jNum (get (campaign_data json) "goal") = Ok n_goal /\
    jNum (get (campaign_data json) "total") = Ok n_total /\
    jNum (get (campaign_data json) "deadline") = Ok n_deadline /\
    c = decoded json id s_title s_description n_goal n_total n_deadline.
Proof.
  unfold parseCampaign. rewrite !member_campaign_data. cbn [bind].
  split.
  - destruct (jStr (get (campaign_data json) "title")) as [s1 | ]; [ | discriminate].
    destruct (jStr (get (campaign_data json) "description")) as [s2 | ]; [ | discriminate].
    destruct (jNum (get (campaign_data json) "goal")) as [n1 | ]; [ | discriminate].
    destruct (jNum (get (campaign_data json) "total")) as [n2 | ]; [ | discriminate].
    destruct (jNum (get (campaign_data json) "deadline")) as [n3 | ]; [ | discriminate].
    cbn [bind]. intros H. injection H as <-.
    exists s1, s2, n1, n2, n3. repeat split; reflexivity.
  - intros (s1 & s2 & n1 & n2 & n3 & H1 & H2 & H3 & H4 & H5 & ->).
    rewrite H1, H2, H3, H4, H5. reflexivity.
Qed.

Lemma decodable_spec (json : value) :
  decodable json = true <->
  (exists s, jStr (get (campaign_data json) "title") = Ok s) /\
  (exists s, jStr (get (campaign_data json) "description") = Ok s) /\
  (exists x, jNum (get (campaign_data json) "goal") = Ok x) /\
  (exists x, jNum (get (campaign_data json) "total") = Ok x) /\
  (exists x, jNum (get (campaign_data json) "deadline") = Ok x).
Proof.
  rewrite <- !jStr_returns, <- !jNum_returns.
  unfold decodable, converted_fields. cbn [forallb].
  rewrite !andb_true_iff. tauto.
Qed.

Lemma parseCampaign_returns (json : value) (id : nat) :
  decodable json = true <-> exists c, parseCampaign json id = Ok c.
Proof.
  rewrite decodable_spec. split.
  - intros ([s1 H1] & [s2 H2] & [n1 H3] & [n2 H4] & [n3 H5]).
    exists (decoded json id s1 s2 n1 n2 n3).
    apply parseCampaign_spec. exists s1, s2, n1, n2, n3. auto 10.
  - intros [c Hc]. apply parseCampaign_spec in Hc
      as (s1 & s2 & n1 & n2 & n3 & H1 & H2 & H3 & H4 & H5 & _).
    eauto 10.
Qed.

Lemma jStr_absent : jStr VUndefined = Ok "".
Proof. reflexivity. Qed.

Lemma jNum_absent : jNum VUndefined = Ok 0%float.
Proof. reflexivity. Qed.

Lemma placeholder_not_empty : placeholder <> "".
Proof. discriminate. Qed.

(** C2 (as amended): when the fields that are present convert, the decode of
    a raw structure returns a campaign in which every absent numeric field
    is 0, every absent flag is false, an absent owner is the empty string,
    and an absent title or description is the fixed placeholder, which is
    not the empty string. *)
Theorem parseCampaign_defaults (json : value) (id : nat) :
  decodable json = true ->
  exists c,
    parseCampaign json id = Ok c /\
    (absent json "title" -> title c = placeholder) /\
    (absent json "description" -> description c = placeholder) /\
    (absent json "goal" -> goal c = 0%float) /\
    (absent json "total" -> total c = 0%float) /\
    (absent json "deadline" -> deadline c = 0%float) /\
    (absent json "owner" -> owner c = VString "") /\
    (absent json "active" -> active c = false) /\
    (absent json "successful" -> successful c = false) /\
    (absent json "withdrawn" -> withdrawn c = false) /\
    (absent json "finalized" -> finalized c = false) /\
    placeholder <> "".
Proof.
  intros Hd. apply (parseCampaign_returns json id) in Hd as [c Hc].
  exists c. split; [exact Hc | ].
  apply parseCampaign_spec in Hc
    as (s1 & s2 & n1 & n2 & n3 & H1 & H2 & H3 & H4 & H5 & ->).
  unfold absent, decoded; cbn [title description goal total deadline owner
    active successful withdrawn finalized].
  repeat split; try (intros Ha; rewrite Ha; reflexivity);
    try exact placeholder_not_empty; intros Ha; rewrite Ha in *.
  - rewrite jStr_absent in H1. now injection H1 as <-.
  - rewrite jStr_absent in H2. now injection H2 as <-.
  - rewrite jNum_absent in H3. now injection H3 as <-.
  - rewrite jNum_absent in H4. now injection H4 as <-.
  - rewrite jNum_absent in H5. now injection H5 as <-.
Qed.

(** C8 (as amended): the decode copies the two flags independently: the
    decoded [active] and [withdrawn] are the truthiness of the raw [active]
    and [withdrawn] fields, so the decoded campaign has [active = false]
    whenever [withdrawn = true] exactly when the raw flags do. *)
Theorem parseCampaign_flags (json : value) (id : nat) (c : Campaign) :
  parseCampaign json id = Ok c ->
  active c = jBool (get (campaign_data json) "active") /\
  withdrawn c = jBool (get (campaign_data json) "withdrawn") /\
  ((withdrawn c = true -> active c = false) <->
   (jBool (get (campaign_data json) "withdrawn") = true ->
    jBool (get (campaign_data json) "active") = false)).
Proof.
  intros Hc. apply parseCampaign_spec in Hc
    as (s1 & s2 & n1 & n2 & n3 & _ & _ & _ & _ & _ & ->).
  cbn [decoded active withdrawn]. repeat split; auto.
Qed.

(** C10 (as amended): no property read of [parseCampaign] throws, and the
    decode returns a campaign exactly for the inputs whose title,
    description, goal, total and deadline values convert, that is, reach
    no object with an own [toString] property; [null] and [undefined] are
    among them. *)
Theorem parseCampaign_total_on_decodable (json : value) (id : nat) :
  ((exists c, parseCampaign json id = Ok c) <-> decodable json = true) /\
  (forall k, member (campaign_data json) k = Ok (get (campaign_data json) k)) /\
  decodable VNull = true /\ decodable VUndefined = true.
Proof.
  split; [symmetry; apply parseCampaign_returns | ].
  split; [apply member_campaign_data | split; reflexivity].
Qed.

End DecodeFacts.

(** ** Decoding, on examples *)

(** The defaults, on a raw campaign that carries a goal and nothing else. *)
Lemma parseCampaign_defaults_witness :
  decodable goal_only = true /\
  exists c,
    parseCampaign (host := sample_host) goal_only 7 = Ok c /\
    (absent goal_only "title" -> title c = placeholder) /\
    (absent goal_only "description" -> description c = placeholder) /\
    (absent goal_only "goal" -> goal c = 0%float) /\
    (absent goal_only "total" -> total c = 0%float) /\
    (absent goal_only "deadline" -> deadline c = 0%float) /\
    (absent goal_only "owner" -> owner c = VString "") /\
    (absent goal_only "active" -> active c = false) /\
    (absent goal_only "successful" -> successful c = false) /\
    (absent goal_only "withdrawn" -> withdrawn c = false) /\
    (absent goal_only "finalized" -> finalized c = false) /\
    placeholder <> "".
Proof.
  split; [reflexivity | ].
  apply (parseCampaign_defaults (host := sample_host) goal_only 7).
  reflexivity.
Defined.

(** C2, as stated, fails: the title of a raw campaign without a title is
    not the empty string. *)
Lemma absent_title_is_not_empty :
  exists c,
    parseCampaign (host := sample_host) goal_only 7 = Ok c /\
    absent goal_only "title" /\
    title c <> "" /\ goal c = 100%float.
Proof.
  eexists. split; [reflexivity | ].
  split; [reflexivity | ]. split; [discriminate | reflexivity].
Qed.

(** The flags, on a raw campaign that carries neither. *)
Lemma parseCampaign_flags_witness :
  exists c,
    parseCampaign (host := sample_host) goal_only 7 = Ok c /\
    active c = jBool (get (campaign_data goal_only) "active") /\
    withdrawn c = jBool (get (campaign_data goal_only) "withdrawn") /\
    ((withdrawn c = true -> active c = false) <->
     (jBool (get (campaign_data goal_only) "withdrawn") = true ->
      jBool (get (campaign_data goal_only) "active") = false)).
Proof.
  eexists. split; [reflexivity | ].
  apply (parseCampaign_flags (host := sample_host) goal_only 7). reflexivity.
Defined.

(** C8, as stated, fails: a decoded campaign can be withdrawn and active. *)
Lemma decoded_withdrawn_and_active :
  exists c,
    parseCampaign (host := sample_host) active_and_withdrawn 0 = Ok c /\
    withdrawn c = true /\ active c = true.
Proof. eexists. repeat split. Qed.

(** C10, as stated, fails: the decode throws on a title whose value is an
    object with an own [toString] property. *)
Lemma parseCampaign_throws :
  parseCampaign (host := sample_host) title_with_toString 0 = Throw cannot_convert.
Proof. reflexivity. Qed.

(** ** Polling *)

Section PollFacts.
Variables (w : World) (txId : string).

Lemma filter_none {A : Type} (f : A -> bool) (l : list A) :
  Forall (fun x => f x = false) l -> filter f l = [].
Proof.
  induction 1 as [ | x l Hx _ IH]; simpl; [reflexivity | now rewrite Hx].
Qed.

Lemma poll_step (fuel retries : nat) :
  poll (S fuel) w txId retries =
  match reported w txId retries with
  | Throw error => Some (Throw error, [StatusRequest txId; ClearInterval])
  | Ok tx_status =>
      if terminal tx_status
      then Some (Ok tt, [StatusRequest txId; ClearInterval])
      else if (maxRetries <=? retries)%nat
      then Some (Throw timed_out, [StatusRequest txId; ClearInterval])
      else
        match poll fuel w txId (S retries) with
        | Some (outcome, tr) => Some (outcome, StatusRequest txId :: tr)
        | None => None
        end
  end.
Proof. reflexivity. Qed.

(** A terminal status stops the poll at once, whatever the counter. *)
Lemma poll_terminal (fuel retries : nat) (tx_status : value) :
  reported w txId retries = Ok tx_status -> terminal tx_status = true ->
  poll (S fuel) w txId retries = Some (Ok tt, [StatusRequest txId; ClearInterval]).
Proof. intros H1 H2. now rewrite poll_step, H1, H2. Qed.

(** The poll always ends, after at most [maxRetries + 1] lookups. *)
Lemma poll_returns (fuel retries : nat) :
  maxRetries - retries < fuel ->
  exists outcome tr,
    poll fuel w txId retries = Some (outcome, tr) /\
    Forall (polling_event txId) tr /\
    length (filter is_status_request tr) <= S (maxRetries - retries).
Proof.
  revert retries. induction fuel as [ | fuel IH]; intros retries Hfuel; [lia | ].
  rewrite poll_step.
  assert (Hlast : Forall (polling_event txId) [StatusRequest txId; ClearInterval])
    by (constructor; [now left | constructor; [now right | constructor]]).
  destruct (reported w txId retries) as [tx_status | error].
  2: { do 2 eexists. split; [reflexivity | split; [exact Hlast | cbn [filter is_status_request length]; lia]]. }
  destruct (terminal tx_status).
  { do 2 eexists. split; [reflexivity | split; [exact Hlast | cbn [filter is_status_request length]; lia]]. }
  destruct (Nat.leb_spec maxRetries retries) as [Hle | Hlt].
  { do 2 eexists. split; [reflexivity | split; [exact Hlast | cbn [filter is_status_request length]; lia]]. }
  destruct (IH (S retries)) as (outcome & tr & Hp & Hev & Hlen); [lia | ].
  rewrite Hp. exists outcome, (StatusRequest txId :: tr).
  split; [reflexivity | split].
  - constructor; [now left | exact Hev].
  - cbn [filter is_status_request length]. lia.
Qed.

(** Lookups that keep answering with a status that is not terminal end in
    the time-out, at the lookup made when the counter has reached
    [maxRetries]. *)
Lemma poll_pending (fuel retries : nat) :
  (forall n, pending w txId n) ->
  retries <= maxRetries -> maxRetries - retries < fuel ->
  poll fuel w txId retries =
  Some (Throw timed_out,
        (repeat (StatusRequest txId) (S (maxRetries - retries)) ++ [ClearInterval])%list).
Proof.
  intros Hpending. revert retries.
  induction fuel as [ | fuel IH]; intros retries Hle Hfuel; [lia | ].
  rewrite poll_step.
  destruct (Hpending retries) as (tx_status & -> & ->).
  destruct (Nat.leb_spec maxRetries retries) as [Hge | Hlt].
  - replace (maxRetries - retries) with 0 by lia. reflexivity.
  - rewrite IH by lia.
    replace (maxRetries - retries) with (S (maxRetries - S retries)) by lia.
    reflexivity.
Qed.

(** Lookups that are pending up to the [k]-th and terminal there stop the
    poll at that lookup. *)
Lemma poll_stops_at (k fuel retries : nat) (tx_status : value) :
  (forall n, retries <= n < retries + k -> pending w txId n) ->
  reported w txId (retries + k) = Ok tx_status -> terminal tx_status = true ->
  retries + k <= maxRetries -> k < fuel ->
  poll fuel w txId retries =
  Some (Ok tt, (repeat (StatusRequest txId) (S k) ++ [ClearInterval])%list).
Proof.
  revert fuel retries.
  induction k as [ | k IH]; intros fuel retries Hpending Hrep Hterm Hle Hfuel.
  - destruct fuel as [ | fuel]; [lia | ].
    rewrite Nat.add_0_r in Hrep. now rewrite (poll_terminal _ _ _ Hrep Hterm).
  - destruct fuel as [ | fuel]; [lia | ].
    rewrite poll_step.
    destruct (Hpending retries) as (st0 & -> & ->); [lia | ].
    destruct (Nat.leb_spec maxRetries retries) as [Hge | Hlt]; [lia | ].
    rewrite (IH fuel (S retries)); try lia; try assumption.
    + reflexivity.
    + intros n Hn. apply Hpending. lia.
    + now replace (S retries + k) with (retries + S k) by lia.
Qed.

End PollFacts.

(** ** Refreshing *)


Lemma campaign_indices_seq (fuel i : nat) (count : float) (indices : list nat) :
  campaign_indices fuel i count = Some indices ->
  indices = seq i (length indices).
Proof.
  revert i indices. induction fuel as [ | fuel IH]; intros i indices; [discriminate | ].
  simpl. destruct (PrimFloat.ltb (float_of_nat i) count).
  - destruct (campaign_indices fuel (S i) count) as [l | ] eqn:Hl; [ | discriminate].
    intros H. injection H as <-. simpl. f_equal. now apply IH.
  - intros H. now injection H as <-.
Qed.

Section FetchFacts.
Context {host : Host}.

Lemma parseCampaign_id (json : value) (index : nat) (c : Campaign) :
  parseCampaign json index = Ok c -> id c = index.
Proof.
  intros H. apply parseCampaign_spec in H
    as (s1 & s2 & n1 & n2 & n3 & _ & _ & _ & _ & _ & ->).
  reflexivity.
Qed.

Lemma decode_complete (rs : list value) (start i : nat) (json : value) (c : Campaign) :
  nth_error rs i = Some json -> parseCampaign json (start + i) = Ok c ->
  In c (drop_null (map fst (map_index decode_one start rs))).
Proof.
  revert start i. induction rs as [ | r rs IH]; intros start i Hnth Hparse.
  - destruct i; discriminate.
  - simpl. unfold decode_one at 1. destruct i as [ | i]; simpl in Hnth.
    + injection Hnth as ->. rewrite Nat.add_0_r in Hparse. rewrite Hparse.
      now left.
    + rewrite <- Nat.add_succ_comm in Hparse.
      specialize (IH (S start) i Hnth Hparse).
      destruct (parseCampaign r start); simpl; auto.
Qed.

Lemma decode_sound (rs : list value) (start : nat) (c : Campaign) :
  In c (drop_null (map fst (map_index decode_one start rs))) ->
  exists i json, nth_error rs i = Some json /\ parseCampaign json (start + i) = Ok c.
Proof.
  revert start. induction rs as [ | r rs IH]; intros start Hin; [contradiction | ].
  simpl in Hin. unfold decode_one at 1 in Hin.
  destruct (parseCampaign r start) as [c0 | e] eqn:Hparse; simpl in Hin.
  - destruct Hin as [<- | Hin].
    + exists 0, r. now rewrite Nat.add_0_r.
    + destruct (IH (S start) Hin) as (i & json & Hnth & Hp).
      exists (S i), json. now rewrite <- Nat.add_succ_comm.
  - destruct (IH (S start) Hin) as (i & json & Hnth & Hp).
    exists (S i), json. now rewrite <- Nat.add_succ_comm.
Qed.

Lemma decode_warns (rs : list value) (start i : nat) (json : value) (e : exn) :
  nth_error rs i = Some json -> parseCampaign json (start + i) = Throw e ->
  In (parse_warning (start + i) e) (concat (map snd (map_index decode_one start rs))).
Proof.
  revert start i. induction rs as [ | r rs IH]; intros start i Hnth Hparse.
  - destruct i; discriminate.
  - simpl. apply in_or_app. destruct i as [ | i]; simpl in Hnth.
    + injection Hnth as ->. left. rewrite Nat.add_0_r in *.
      unfold decode_one. rewrite Hparse. now left.
    + right. rewrite <- Nat.add_succ_comm in *. now apply IH.
Qed.

Lemma decode_log_refresh (rs : list value) (start : nat) :
  Forall (fun ev => refresh_event ev = true)
         (concat (map snd (map_index decode_one start rs))).
Proof.
  revert start. induction rs as [ | r rs IH]; intros start; [constructor | ].
  simpl. apply Forall_app. split; [ | apply IH].
  unfold decode_one. destruct (parseCampaign r start); repeat constructor.
Qed.

(** What the batch decode keeps and what it logs. *)
Lemma decode_campaigns_spec (rs : list value) (i : nat) (json : value) :
  nth_error rs i = Some json ->
  match parseCampaign json i with
  | Ok c => In c (fst (decode_campaigns rs))
  | Throw e =>
      In (parse_warning i e) (snd (decode_campaigns rs)) /\
      forall c, In c (fst (decode_campaigns rs)) -> id c <> i
  end.
Proof.
  intros Hnth. unfold decode_campaigns; cbn [fst snd].
  destruct (parseCampaign json i) as [c | e] eqn:Hparse.
  - now apply (decode_complete rs 0 i json).
  - split; [now apply (decode_warns rs 0 i json) | ].
    intros c Hin Hid. apply decode_sound in Hin as (i' & json' & Hnth' & Hp').
    cbn [Nat.add] in Hp'. pose proof (parseCampaign_id _ _ _ Hp') as Hid'.
    assert (i' = i) as -> by congruence.
    congruence.
Qed.

Variables (fuel : nat) (w : World) (st : Page).

Lemma fetch_stats_rejected (error : exn) :
  stats_answers w = Throw error ->
  fetchAllData fuel w st =
  Some (setLoading false (setLoading true st),
        (stats_trace ++ [ConsoleError fetch_error error; SetLoading false])%list).
Proof.
  unfold stats_answers, fetchAllData. intros ->. reflexivity.
Qed.

Lemma fetch_stats_undecoded (answers : list value) (error : exn) :
  stats_answers w = Ok answers -> decode_stats answers = Throw error ->
  fetchAllData fuel w st =
  Some (setLoading false (setLoading true st),
        (stats_trace ++ [ConsoleError fetch_error error; SetLoading false])%list).
Proof.
  unfold stats_answers, fetchAllData. intros -> ->. reflexivity.
Qed.

Lemma fetch_campaigns_rejected (answers : list value) (stats : GlobalStats)
    (indices : list nat) (error : exn) :
  stats_answers w = Ok answers -> decode_stats answers = Ok stats ->
  campaign_indices fuel 0 (totalCampaigns stats) = Some indices ->
  campaign_answers w indices = Throw error ->
  fetchAllData fuel w st =
  Some (setLoading false (setGlobalStats stats (setLoading true st)),
        ((stats_trace ++ [SetGlobalStats stats])
           ++ map (fun i => ReadOnlyCall "get-campaign" (Some i)) indices
           ++ [ConsoleError fetch_error error; SetLoading false])%list).
Proof.
  unfold stats_answers, campaign_answers, fetchAllData.
  intros -> -> -> ->. unfold fetch_failed. now rewrite <- app_assoc.
Qed.

Lemma fetch_succeeds (answers : list value) (stats : GlobalStats)
    (indices : list nat) (campaignResults : list value) :
  stats_answers w = Ok answers -> decode_stats answers = Ok stats ->
  campaign_indices fuel 0 (totalCampaigns stats) = Some indices ->
  campaign_answers w indices = Ok campaignResults ->
  fetchAllData fuel w st =
  Some (setLoading false
          (setCampaigns (fst (decode_campaigns campaignResults))
             (setGlobalStats stats (setLoading true st))),
        ((stats_trace ++ [SetGlobalStats stats])
           ++ map (fun i => ReadOnlyCall "get-campaign" (Some i)) indices
           ++ snd (decode_campaigns campaignResults)
           ++ [SetCampaigns (fst (decode_campaigns campaignResults)); SetLoading false])%list).
Proof.
  unfold stats_answers, campaign_answers, fetchAllData.
  intros -> -> -> ->. destruct (decode_campaigns campaignResults) as [fetched log].
  cbn [fst snd]. now rewrite <- !app_assoc.
Qed.

End FetchFacts.

Section RefreshFacts.
Context {host : Host}.
Variables (fuel : nat) (w : World) (st : Page).

Lemma campaign_calls_read_only (indices : list nat) :
  filter is_read_only_call (campaign_calls indices) = campaign_calls indices.
Proof.
  induction indices as [ | i l IH]; simpl; [reflexivity | now rewrite IH].
Qed.

Lemma campaign_calls_refresh (indices : list nat) :
  Forall (fun ev => refresh_event ev = true) (campaign_calls indices).
Proof. induction indices; simpl; constructor; auto. Qed.

Lemma stats_trace_refresh : Forall (fun ev => refresh_event ev = true) stats_trace.
Proof. repeat constructor. Qed.


(** C7 (as amended): a network failure of a refresh is written to the error
    log and nothing is asked twice.  When it is the statistics batch that
    fails, the campaign list and the global stats keep their prior values;
    when it is the per-campaign batch, the campaign list keeps its prior
    value and the global stats are the ones just fetched. *)
Theorem fetch_network_failure :
  (forall error,
     stats_answers w = Throw error ->
     exists st' tr,
       fetchAllData fuel w st = Some (st', tr) /\
       campaigns st' = campaigns st /\
       globalStats st' = globalStats st /\
       In (ConsoleError fetch_error error) tr /\
       filter is_read_only_call tr
         = map (fun fn => ReadOnlyCall fn None) stats_functions) /\
  (forall answers stats indices error,
     stats_answers w = Ok answers -> decode_stats answers = Ok stats ->
     campaign_indices fuel 0 (totalCampaigns stats) = Some indices ->
     campaign_answers w indices = Throw error ->
     exists st' tr,
       fetchAllData fuel w st = Some (st', tr) /\
       campaigns st' = campaigns st /\
       globalStats st' = stats /\
       In (ConsoleError fetch_error error) tr /\
       filter is_read_only_call tr
         = (map (fun fn => ReadOnlyCall fn None) stats_functions
            ++ campaign_calls (seq 0 (length indices)))%list).
Proof.
  split.
  - intros error Hstats. do 2 eexists.
    split; [eapply fetch_stats_rejected; eassumption | ].
    split; [reflexivity | split; [reflexivity | split]].
    + apply in_or_app. right. now left.
    + rewrite filter_app. reflexivity.
  - intros answers stats indices error Hstats Hdecode Hindices Hcampaigns.
    do 2 eexists.
    split; [eapply fetch_campaigns_rejected; eassumption | ].
    split; [reflexivity | split; [reflexivity | split]].
    + apply in_or_app. right. apply in_or_app. right. now left.
    + rewrite !filter_app. fold (campaign_calls indices).
      rewrite campaign_calls_read_only.
      rewrite <- (campaign_indices_seq _ _ _ _ Hindices).
      cbn. now rewrite app_nil_r.
Qed.

(** C9: when the network calls of a refresh succeed, the refresh completes
    whatever the decodes do: a campaign whose decode throws is logged under
    its index and no campaign of that index is in the stored list, every
    campaign whose decode returns is in the stored list, and the stored
    list holds nothing else. *)
Theorem fetch_isolates_decode_failures
    (answers : list value) (stats : GlobalStats)
    (indices : list nat) (campaignResults : list value) :
  stats_answers w = Ok answers -> decode_stats answers = Ok stats ->
  campaign_indices fuel 0 (totalCampaigns stats) = Some indices ->
  campaign_answers w indices = Ok campaignResults ->
  exists st' tr,
    fetchAllData fuel w st = Some (st', tr) /\
    In (SetCampaigns (campaigns st')) tr /\
    (forall i json,
       nth_error campaignResults i = Some json ->
       match parseCampaign json i with
       | Ok c => In c (campaigns st')
       | Throw e =>
           In (parse_warning i e) tr /\
           forall c, In c (campaigns st') -> id c <> i
       end) /\
    (forall c,
       In c (campaigns st') ->
       exists i json,
         nth_error campaignResults i = Some json /\ parseCampaign json i = Ok c).
Proof.
  intros Hstats Hdecode Hindices Hcampaigns. do 2 eexists.
  split; [eapply fetch_succeeds; eassumption | ].
  cbn [campaigns setLoading setCampaigns]. split; [ | split].
  - apply in_or_app. right. apply in_or_app. right. apply in_or_app. right.
    now left.
  - intros i json Hnth. pose proof (decode_campaigns_spec _ _ _ Hnth) as Hspec.
    destruct (parseCampaign json i) as [c | e]; [exact Hspec | ].
    destruct Hspec as [Hwarn Hdropped]. split; [ | exact Hdropped].
    apply in_or_app. right. apply in_or_app. right. apply in_or_app. now left.
  - intros c Hin. now apply (decode_sound campaignResults 0).
Qed.

End RefreshFacts.

(** ** Order on numbers *)

Lemma SFeqb_finite_refl (s : bool) (m : positive) (e : Z) :
  SFeqb (S754_finite s m e) (S754_finite s m e) = true.
Proof.
  unfold SFeqb, SFcompare. rewrite Z.compare_refl, Pos.compare_cont_refl.
  now destruct s.
Qed.

(** A number above the threshold is truthy and positive. *)
Lemma above_threshold_has_deadline (deadline : float) :
  PrimFloat.ltb unixThreshold deadline = true -> no_deadline deadline = false.
Proof.
  unfold no_deadline, to_boolean, is_nan.
  rewrite FloatAxioms.ltb_spec, !FloatAxioms.eqb_spec, FloatAxioms.leb_spec.
  change (Prim2SF 0) with (S754_zero false).
  replace (Prim2SF unixThreshold)
    with (S754_finite false 8388608000000000 (-23)%Z) by reflexivity.
  destruct (Prim2SF deadline) as [s | s | | s m e];
    try destruct s; try discriminate; intros _.
  - reflexivity.
  - now rewrite SFeqb_finite_refl.
Qed.

Section NumberFacts.
Context {host : Host}.



End NumberFacts.

(** ** Submitting *)

Lemma is_string_spec (v : value) (s : string) :
  is_string v s = true <-> v = VString s.
Proof.
  destruct v; simpl; try (split; [discriminate | congruence]).
  rewrite String.eqb_eq. split; [now intros -> | congruence].
Qed.


Lemma refresh_event_quiet (tr : list event) (f : event -> bool) :
  (forall ev, refresh_event ev = true -> f ev = false) ->
  Forall (fun ev => refresh_event ev = true) tr -> filter f tr = [].
Proof.
  intros Hf Hev. apply filter_none. eapply Forall_impl; [ | exact Hev]. exact Hf.
Qed.

Lemma refresh_not_open (ev : event) :
  refresh_event ev = true -> is_open_contract_call ev = false.
Proof. destruct ev; simpl; congruence. Qed.

Section SubmitFacts.
Context {host : Host}.
Variables (fuel : nat) (w : World).

Lemma onFinish_rejected (st : Page) (txId : string) (error : exn) (polled : list event) :
  waitForTransaction fuel w txId = Some (Throw error, polled) ->
  onFinish fuel w st txId =
  Some (st,
        (Alert broadcast_notice :: polled
         ++ [ConsoleError "Transaction confirmation failed:" error;
             Alert failure_notice])%list).
Proof. unfold onFinish. now intros ->. Qed.

Lemma onFinish_resolved (st : Page) (txId : string) (polled refreshed : list event) (st' : Page) :
  waitForTransaction fuel w txId = Some (Ok tt, polled) ->
  fetchAllData fuel w st = Some (st', refreshed) ->
  onFinish fuel w st txId =
  Some (st',
        (Alert broadcast_notice :: polled ++ refreshed
         ++ [Alert success_notice])%list).
Proof. unfold onFinish. now intros -> ->. Qed.



Lemma isWithdraw_goalReached (campaign : Campaign) :
  isWithdraw campaign = goalReached campaign.
Proof. unfold isWithdraw, chosen_function. now destruct (goalReached campaign). Qed.

(** Building the call: below the goal it is [finalize-failure] without a
    guarantee; at or above the goal it is [withdraw-funds] with the
    guarantee when the builder reads the amount text, and the builder's
    error when it does not. *)
Lemma close_call_cases (campaign : Campaign) (campaignId : nat) :
  close_call campaign campaignId =
  if goalReached campaign
  then if integer_literal (cap_text campaign)
       then Ok {| contractAddress := CONTRACT_ADDRESS;
                  contractName := CONTRACT_NAME;
                  functionName := "withdraw-funds";
                  functionArgs := [campaignId];
                  postConditionMode := Some Allow;
                  postConditions := [transfer_at_most (cap_text campaign)] |}
       else Throw (invalid_amount (cap_text campaign))
  else Ok {| contractAddress := CONTRACT_ADDRESS;
             contractName := CONTRACT_NAME;
             functionName := "finalize-failure";
             functionArgs := [campaignId];
             postConditionMode := None;
             postConditions := [] |}.
Proof.
  unfold close_call, close_postConditions, makeContractSTXPostCondition,
    withdrawAmountMicro, cap_text, chosen_function.
  rewrite isWithdraw_goalReached.
  destruct (goalReached campaign); [ | reflexivity].
  now destruct (integer_literal _).
Qed.

(** A call that is built carries the campaign's id, the function chosen by
    the comparison of total and goal, and the guarantee of the withdraw
    path only. *)
Lemma close_call_built (campaign : Campaign) (campaignId : nat) (call : ContractCall) :
  close_call campaign campaignId = Ok call ->
  functionArgs call = [campaignId] /\
  functionName call =
    (if goalReached campaign then "withdraw-funds" else "finalize-failure") /\
  postConditions call =
    (if goalReached campaign then [transfer_at_most (cap_text campaign)] else []).
Proof.
  rewrite close_call_cases.
  destruct (goalReached campaign); [destruct (integer_literal _) | ];
    intros H; inversion H; now subst.
Qed.



End SubmitFacts.

Section GuardFacts.
Context {host : Host}.
Variables (fuel : nat) (w : World) (st : Page) (campaignId : nat).

(** C5: without a session, or with a session whose address is not exactly
    the owner of the campaign, [handleCloseCampaign] shows a notice and
    does nothing else: the page state is unchanged, nothing is built and
    the trace holds no network event. *)
Theorem close_rejects_unauthorized :
  (user st = None \/
   exists u campaign,
     user st = Some u /\
     find_campaign (campaigns st) campaignId = Some campaign /\
     owner campaign <> VString (stxAddress_testnet u)) ->
  exists notice tr,
    handleCloseCampaign fuel w st campaignId = Some (st, tr) /\
    tr = [Alert notice] /\
    (notice = connect_notice \/ notice = owner_notice) /\
    filter is_network_event tr = [] /\
    filter is_open_contract_call tr = [].
Proof.
  unfold handleCloseCampaign.
  intros [Hnone | (u & campaign & Hu & Hfind & Howner)].
  - rewrite Hnone. exists connect_notice. eexists. repeat split. now left.
  - rewrite Hu, Hfind.
    destruct (is_string (owner campaign) (stxAddress_testnet u)) eqn:Heq.
    + apply is_string_spec in Heq. contradiction.
    + exists owner_notice. eexists. repeat split. now right.
Qed.

End GuardFacts.

Section ConfirmationFacts.
Context {host : Host}.
Variables (fuel : nat) (w : World) (st : Page) (txId : string).

(** C3 (as amended): when every lookup is answered before the timer fires
    again, the poll makes at most 16 lookups, the first one and 15
    retries.  When, besides, no lookup ever reports a terminal status it
    ends in the time-out after exactly 16 lookups, and the callback then
    shows the failure notice, leaves the page state as it was and makes no
    read-only call. *)
Theorem poll_budget :
  maxRetries < fuel ->
  S maxRetries = 16 /\
  (exists outcome tr,
     waitForTransaction fuel w txId = Some (outcome, tr) /\
     length (filter is_status_request tr) <= 16) /\
  ((forall n, pending w txId n) ->
   waitForTransaction fuel w txId =
     Some (Throw timed_out,
           (repeat (StatusRequest txId) 16 ++ [ClearInterval])%list) /\
   exists tr,
     onFinish fuel w st txId = Some (st, tr) /\
     length (filter is_status_request tr) = 16 /\
     filter is_read_only_call tr = [] /\
     In (Alert failure_notice) tr).
Proof.
  intros Hfuel. split; [reflexivity | split].
  - destruct (poll_returns w txId fuel 0) as (outcome & tr & Hpoll & _ & Hlen); [lia | ].
    exists outcome, tr. split; [exact Hpoll | exact Hlen].
  - intros Hpending.
    assert (Hpoll : waitForTransaction fuel w txId =
                    Some (Throw timed_out,
                          (repeat (StatusRequest txId) 16 ++ [ClearInterval])%list)).
    { unfold waitForTransaction. rewrite poll_pending; auto; lia. }
    split; [exact Hpoll | ].
    eexists. split; [eapply onFinish_rejected; exact Hpoll | ].
    repeat split.
    apply in_cons, in_or_app. right. right. now left.
Qed.

(** C1: a first lookup that reports a terminal status, [success] or
    [failed] alike, stops the poll at once and resolves the promise, so the
    callback goes on to refresh the page and announces success. *)
Theorem terminal_status_refreshes
    (tx_status : value) (st' : Page) (refreshed : list event) :
  reported w txId 0 = Ok tx_status ->
  terminal tx_status = true ->
  fetchAllData (S fuel) w st = Some (st', refreshed) ->
  waitForTransaction (S fuel) w txId
    = Some (Ok tt, [StatusRequest txId; ClearInterval]) /\
  onFinish (S fuel) w st txId =
    Some (st',
          (Alert broadcast_notice :: [StatusRequest txId; ClearInterval]
           ++ refreshed ++ [Alert success_notice])%list).
Proof.
  intros Hreported Hterminal Hfetch.
  assert (Hpoll : waitForTransaction (S fuel) w txId
                  = Some (Ok tt, [StatusRequest txId; ClearInterval]))
    by (now apply (poll_terminal w txId fuel 0 tx_status)).
  split; [exact Hpoll | ].
  now apply onFinish_resolved.
Qed.

End ConfirmationFacts.

(** ** Presenting a deadline *)

Section PresenterFacts.
Context {host : Host}.
Variable now : float.

(** C6 (as amended): the presenter has no effect and its result is fixed by
    its two inputs, except on the estimate path, where it also depends on
    the clock reading [now].  A deadline that is zero or negative is shown
    as [No deadline]; 1,700,000,000 is above the threshold and is shown as
    the date at that many seconds; block 500 seen from height 400 is shown
    as the date 100 blocks of ten minutes from now, followed by
    [(est, block 500)]; block 500 seen from height 600 is shown as
    [Block #500]. *)
Theorem formatDeadlineDisplay_cases :
  (forall deadline height,
     PrimFloat.leb deadline 0 = true ->
     formatDeadlineDisplay now deadline height = "No deadline") /\
  (forall height, formatDeadlineDisplay now 0 height = "No deadline") /\
  (forall height,
     formatDeadlineDisplay now 1700000000 height
       = Date_toLocaleString 1700000000000) /\
  (forall deadline height,
     PrimFloat.ltb unixThreshold deadline = true ->
     formatDeadlineDisplay now deadline height
       = Date_toLocaleString (deadline * 1000)) /\
  formatDeadlineDisplay now 500 (Some 400%float)
    = Date_toLocaleString (now + 60000000) ++ " (est, block 500)" /\
  estMs 500 400 = (100 * (10 * 60 * 1000))%float /\
  formatDeadlineDisplay now 500 (Some 600%float) = "Block #500" /\
  (forall deadline height,
     no_deadline deadline = false ->
     PrimFloat.ltb unixThreshold deadline = false ->
     can_estimate deadline (Some height) = true ->
     formatDeadlineDisplay now deadline (Some height)
       = Date_toLocaleString (now + (deadline - height) * 10 * 60 * 1000)
           ++ " (est, block " ++ number_to_string deadline ++ ")") /\
  (forall now' deadline height,
     no_deadline deadline = true \/
     PrimFloat.ltb unixThreshold deadline = true \/
     can_estimate deadline height = false ->
     formatDeadlineDisplay now deadline height
       = formatDeadlineDisplay now' deadline height).
Proof.
  repeat split; try reflexivity.
  - intros deadline height Hle. unfold formatDeadlineDisplay, no_deadline.
    now rewrite Hle, orb_true_r.
  - intros deadline height Habove. unfold formatDeadlineDisplay.
    now rewrite (above_threshold_has_deadline _ Habove), Habove.
  - intros deadline height H1 H2 H3. unfold formatDeadlineDisplay.
    now rewrite H1, H2, H3.
  - intros now' deadline height Hcase. unfold formatDeadlineDisplay.
    destruct (no_deadline deadline); [reflexivity | ].
    destruct (PrimFloat.ltb unixThreshold deadline); [reflexivity | ].
    destruct (can_estimate deadline height); [ | reflexivity].
    destruct Hcase as [H | [H | H]]; discriminate.
Qed.

End PresenterFacts.

(** ** The page on examples *)

(** The example of the specification: total 150 against a goal of 100. *)
Example close_call_goal_met :
  close_call (host := sample_host) (campaign_of 100 150) 0 =
  Ok {| contractAddress := CONTRACT_ADDRESS;
        contractName := CONTRACT_NAME;
        functionName := "withdraw-funds";
        functionArgs := [0];
        postConditionMode := Some Allow;
        postConditions := [transfer_at_most "150000000"] |}.
Proof. reflexivity. Qed.

(** The example of the specification: total 50 against a goal of 100. *)
Example close_call_goal_missed :
  close_call (host := sample_host) (campaign_of 100 50) 0 =
  Ok {| contractAddress := CONTRACT_ADDRESS;
        contractName := CONTRACT_NAME;
        functionName := "finalize-failure";
        functionArgs := [0];
        postConditionMode := None;
        postConditions := [] |}.
Proof. reflexivity. Qed.

(** The example of the specification: success at the third lookup stops the
    poll there and is followed by one refresh. *)
Example success_at_third_lookup :
  waitForTransaction 16 success_at_third "0xabc"
    = Some (Ok tt, (repeat (StatusRequest "0xabc") 3 ++ [ClearInterval])%list) /\
  exists st' tr,
    onFinish (host := sample_host) 16 success_at_third
      (page_of alice_session (campaign_of 100 150)) "0xabc" = Some (st', tr) /\
    length (filter is_status_request tr) = 3 /\
    length (filter (fun ev => match ev with SetLoading true => true | _ => false end) tr) = 1 /\
    In (Alert success_notice) tr.
Proof.
  split.
  - apply (poll_stops_at success_at_third "0xabc" 2 16 0 (VString "success"));
      try reflexivity; try lia.
    + intros n Hn. exists (VString "pending").
      assert (n = 0 \/ n = 1) as [-> | ->] by lia; split; reflexivity.
    + unfold maxRetries. lia.
  - do 2 eexists. split; [reflexivity | ].
    split; [reflexivity | split; [reflexivity | ]]. cbn. auto 20.
Qed.

(** A transaction reported as [failed] at the first lookup: the page is
    refreshed and success is announced. *)
Lemma failed_status_refreshes :
  exists st' refreshed,
    fetchAllData (host := sample_host) 16 (world_reporting "failed")
      (page_of alice_session (campaign_of 100 150)) = Some (st', refreshed) /\
    In (ReadOnlyCall "get-campaign-count" None) refreshed /\
    waitForTransaction 16 (world_reporting "failed") "0xabc"
      = Some (Ok tt, [StatusRequest "0xabc"; ClearInterval]) /\
    onFinish (host := sample_host) 16 (world_reporting "failed")
      (page_of alice_session (campaign_of 100 150)) "0xabc" =
      Some (st',
            (Alert broadcast_notice :: [StatusRequest "0xabc"; ClearInterval]
             ++ refreshed ++ [Alert success_notice])%list).
Proof.
  do 2 eexists. split; [reflexivity | ].
  split; [do 4 right; now left | ].
  eapply (terminal_status_refreshes (host := sample_host) 15
            (world_reporting "failed")
            (page_of alice_session (campaign_of 100 150)) "0xabc");
    reflexivity.
Defined.

(** The budget, against an endpoint that stays pending. *)
Lemma poll_budget_witness :
  S maxRetries = 16 /\
  (exists outcome tr,
     waitForTransaction 16 (world_reporting "pending") "0xabc" = Some (outcome, tr) /\
     length (filter is_status_request tr) <= 16) /\
  ((forall n, pending (world_reporting "pending") "0xabc" n) ->
   waitForTransaction 16 (world_reporting "pending") "0xabc" =
     Some (Throw timed_out,
           (repeat (StatusRequest "0xabc") 16 ++ [ClearInterval])%list) /\
   exists tr,
     onFinish (host := sample_host) 16 (world_reporting "pending")
       (page_of alice_session (campaign_of 100 50)) "0xabc"
       = Some (page_of alice_session (campaign_of 100 50), tr) /\
     length (filter is_status_request tr) = 16 /\
     filter is_read_only_call tr = [] /\
     In (Alert failure_notice) tr).
Proof.
  apply (poll_budget (host := sample_host) 16 (world_reporting "pending")
           (page_of alice_session (campaign_of 100 50)) "0xabc").
  unfold maxRetries. lia.
Defined.

(** C3, as stated, fails: against an endpoint that stays pending the
    interval is still live after 15 lookups, and the time-out comes with
    the 16th. *)
Lemma sixteen_lookups :
  (forall n, pending (world_reporting "pending") "0xabc" n) /\
  waitForTransaction 15 (world_reporting "pending") "0xabc" = None /\
  exists tr,
    waitForTransaction 16 (world_reporting "pending") "0xabc"
      = Some (Throw timed_out, tr) /\
    length (filter is_status_request tr) = 16.
Proof.
  split; [ | split; [reflexivity | eexists; split; reflexivity]].
  intros n. exists (VString "pending"). split; reflexivity.
Qed.



(** The cap is not below zero: with total -1 against a goal of -2, amounts
    that the unsigned fields of the chain do not produce, the goal is met
    and the attached cap is 0, while total x 1,000,000 rounds to
    -1000000. *)
Lemma negative_total_capped_at_zero :
  goalReached (campaign_of (-2) (-1)) = true /\
  close_postConditions (host := sample_host) (campaign_of (-2) (-1))
    = Ok [transfer_at_most "0"] /\
  number_to_string (host := sample_host) (Math_round (-1 * 1000000)) = "-1000000" /\
  PrimFloat.eqb (withdrawAmountMicro (campaign_of (-2) (-1)))
                (Math_round (-1 * 1000000)) = false.
Proof. repeat split. Qed.

(** The guard, for a session whose address differs from the owner only in
    the case of its letters. *)
Lemma close_rejects_unauthorized_witness :
  exists notice tr,
    handleCloseCampaign (host := sample_host) 16 (world_reporting "success")
      (page_of lowercase_session (campaign_of 100 150)) 0
      = Some (page_of lowercase_session (campaign_of 100 150), tr) /\
    tr = [Alert notice] /\
    (notice = connect_notice \/ notice = owner_notice) /\
    filter is_network_event tr = [] /\
    filter is_open_contract_call tr = [].
Proof.
  apply (close_rejects_unauthorized (host := sample_host)).
  right. exists {| stxAddress_testnet := "st2cy5v39nhdpwsxmw9qdt3hc3gd6q6xx4cfrk9ag" |}.
  exists (campaign_of 100 150).
  split; [reflexivity | split; [reflexivity | discriminate]].
Defined.

(** The two failures, on a chain that cannot be reached and on a chain
    whose campaign lookups fail. *)
Lemma fetch_network_failure_witness :
  (exists st' tr,
     fetchAllData (host := sample_host) 4 chain_unreachable empty_page = Some (st', tr) /\
     campaigns st' = campaigns empty_page /\
     globalStats st' = globalStats empty_page /\
     In (ConsoleError fetch_error (Error "Failed to fetch")) tr /\
     filter is_read_only_call tr
       = map (fun fn => ReadOnlyCall fn None) stats_functions) /\
  (exists st' tr,
     fetchAllData (host := sample_host) 4 campaigns_unreachable empty_page
       = Some (st', tr) /\
     campaigns st' = campaigns empty_page /\
     globalStats st' = {| totalRaised := 5; totalContributors := 5000000;
                          activeCampaigns := 5000000; totalCampaigns := 2 |} /\
     In (ConsoleError fetch_error (Error "Failed to fetch")) tr /\
     filter is_read_only_call tr
       = (map (fun fn => ReadOnlyCall fn None) stats_functions
          ++ campaign_calls (seq 0 2))%list).
Proof.
  split.
  - apply (proj1 (fetch_network_failure (host := sample_host) 4
                    chain_unreachable empty_page)).
    reflexivity.
  - eapply (proj2 (fetch_network_failure (host := sample_host) 4
                     campaigns_unreachable empty_page)
              _ _ [0; 1]); reflexivity.
Defined.

(** C7, as stated, fails: when the campaign lookups fail after the
    statistics have arrived, the global stats are no longer the prior
    ones. *)
Lemma stats_replaced_before_failure :
  exists st' tr,
    fetchAllData (host := sample_host) 4 campaigns_unreachable empty_page
      = Some (st', tr) /\
    In (ConsoleError fetch_error (Error "Failed to fetch")) tr /\
    campaigns st' = campaigns empty_page /\
    totalRaised (globalStats empty_page) = 0%float /\
    totalRaised (globalStats st') = 5%float /\
    PrimFloat.eqb (totalRaised (globalStats st'))
                  (totalRaised (globalStats empty_page)) = false.
Proof.
  do 2 eexists. split; [reflexivity | ].
  split; [ | repeat split]. cbn. auto 12.
Qed.

(** The isolation, on a chain of three campaigns whose second does not
    decode. *)
Lemma fetch_isolates_decode_failures_witness :
  exists st' tr,
    fetchAllData (host := sample_host) 4 three_campaigns empty_page = Some (st', tr) /\
    In (SetCampaigns (campaigns st')) tr /\
    (forall i json,
       nth_error [goal_only; title_with_toString; goal_only] i = Some json ->
       match parseCampaign (host := sample_host) json i with
       | Ok c => In c (campaigns st')
       | Throw e =>
           In (parse_warning i e) tr /\
           forall c, In c (campaigns st') -> id c <> i
       end) /\
    (forall c,
       In c (campaigns st') ->
       exists i json,
         nth_error [goal_only; title_with_toString; goal_only] i = Some json /\
         parseCampaign (host := sample_host) json i = Ok c).
Proof.
  eapply (fetch_isolates_decode_failures (host := sample_host) 4 three_campaigns
            empty_page); reflexivity.
Defined.

(** C6, as stated, fails: the same deadline seen from the same height is
    shown differently a day later. *)
Lemma estimate_depends_on_clock :
  formatDeadlineDisplay (host := sample_host) 0 500 (Some 400%float)
    = "60000000 ms (est, block 500)" /\
  formatDeadlineDisplay (host := sample_host) 86400000 500 (Some 400%float)
    = "146400000 ms (est, block 500)" /\
  formatDeadlineDisplay (host := sample_host) 0 500 (Some 400%float)
    <> formatDeadlineDisplay (host := sample_host) 86400000 500 (Some 400%float).
Proof. repeat split. vm_compute. discriminate. Qed.

(** The four examples of the specification, with the clock at zero. *)
Example deadline_examples :
  formatDeadlineDisplay (host := sample_host) 0 0 None = "No deadline" /\
  formatDeadlineDisplay (host := sample_host) 0 1700000000 None = "1700000000000 ms" /\
  formatDeadlineDisplay (host := sample_host) 0 500 (Some 400%float)
    = "60000000 ms (est, block 500)" /\
  formatDeadlineDisplay (host := sample_host) 0 500 (Some 600%float) = "Block #500".
Proof. repeat split. Qed.

(** * Further properties *)

(** ** The poll, whatever the endpoint answers *)

Section PollOutcome.
Variables (w : World) (txId : string).

Lemma terminal_spec (tx_status : value) :
  terminal tx_status = true <->
  tx_status = VString "success" \/ tx_status = VString "failed".
Proof.
  unfold terminal. rewrite orb_true_iff, !is_string_spec. tauto.
Qed.

(** A poll that has ended made its lookups while the counter was below
    [maxRetries] and the answers were not terminal, and was settled by the
    last one. *)
Lemma poll_inversion (fuel retries : nat) (outcome : result unit) (tr : list event) :
  poll fuel w txId retries = Some (outcome, tr) ->
  exists k,
    tr = lookups txId (S k) /\
    (forall n, retries <= n < retries + k -> pending w txId n /\ n < maxRetries) /\
    settles w txId (retries + k) outcome.
Proof.
  revert retries outcome tr.
  induction fuel as [ | fuel IH]; intros retries outcome tr; [discriminate | ].
  rewrite poll_step. unfold settles.
  destruct (reported w txId retries) as [tx_status | error] eqn:Hrep.
  2: { intros H. injection H as <- <-. exists 0. rewrite Nat.add_0_r, Hrep.
       repeat split; lia. }
  destruct (terminal tx_status) eqn:Hterm.
  { intros H. injection H as <- <-. exists 0. rewrite Nat.add_0_r, Hrep, Hterm.
    repeat split; lia. }
  destruct (Nat.leb_spec maxRetries retries) as [Hge | Hlt].
  { intros H. injection H as <- <-. exists 0. rewrite Nat.add_0_r, Hrep, Hterm.
    repeat split; try lia; assumption. }
  destruct (poll fuel w txId (S retries)) as [[o tr'] | ] eqn:Hpoll; [ | discriminate].
  intros H. injection H as <- <-.
  destruct (IH _ _ _ Hpoll) as (k & -> & Hpending & Hsettles).
  exists (S k). split; [reflexivity | split].
  - intros n Hn. destruct (Nat.eq_dec n retries) as [-> | Hne].
    + split; [exists tx_status; auto | exact Hlt].
    + apply Hpending. lia.
  - now rewrite <- Nat.add_succ_comm.
Qed.

(** Conversely, such a run is what the poll does. *)
Lemma poll_runs (k fuel retries : nat) (outcome : result unit) :
  (forall n, retries <= n < retries + k -> pending w txId n /\ n < maxRetries) ->
  settles w txId (retries + k) outcome ->
  k < fuel ->
  poll fuel w txId retries = Some (outcome, lookups txId (S k)).
Proof.
  revert fuel retries.
  induction k as [ | k IH]; intros fuel retries Hpending Hsettles Hfuel;
    (destruct fuel as [ | fuel]; [lia | ]); rewrite poll_step.
  - rewrite Nat.add_0_r in Hsettles. unfold settles in Hsettles.
    destruct (reported w txId retries) as [tx_status | error]; [ | now subst].
    destruct (terminal tx_status); [now subst | ].
    destruct Hsettles as [Hge ->].
    destruct (Nat.leb_spec maxRetries retries); [reflexivity | lia].
  - destruct (Hpending retries) as [(tx_status & -> & ->) Hlt]; [lia | ].
    destruct (Nat.leb_spec maxRetries retries); [lia | ].
    rewrite (IH fuel (S retries)); [reflexivity | | | lia].
    + intros n Hn. apply Hpending. lia.
    + now rewrite Nat.add_succ_comm.
Qed.

Lemma lookups_counts (n : nat) :
  length (filter is_status_request (lookups txId n)) = n /\
  length (filter is_clear_interval (lookups txId n)) = 1.
Proof.
  unfold lookups. rewrite !filter_app, !length_app.
  induction n as [ | n [IH1 IH2]]; [split; reflexivity | ].
  cbn [repeat filter is_status_request is_clear_interval length Nat.add] in *.
  split; lia.
Qed.

(** X1: a poll that has ended, whatever the endpoint answered, made between
    1 and 16 lookups and then cleared its interval, once, as the last
    thing it did. *)
Theorem poll_clears_interval_once
    (fuel : nat) (outcome : result unit) (tr : list event) :
  waitForTransaction fuel w txId = Some (outcome, tr) ->
  exists n,
    1 <= n <= 16 /\
    tr = (repeat (StatusRequest txId) n ++ [ClearInterval])%list /\
    length (filter is_status_request tr) = n /\
    length (filter is_clear_interval tr) = 1.
Proof.
  intros Hpoll. apply poll_inversion in Hpoll as (k & -> & Hpending & _).
  exists (S k). split; [ | split; [reflexivity | apply lookups_counts]].
  split; [lia | ]. destruct k as [ | k]; [lia | ].
  destruct (Hpending k) as [_ Hlt]; [lia | ]. unfold maxRetries in Hlt. lia.
Qed.

(** X2: with every lookup answered before the timer fires again, when the
    lookups before the [k]-th answer with a status that is not terminal
    and the [k]-th fails (the request, the parsing of the body, or the
    read of the status of a null body), the promise is rejected with that
    failure right after that lookup; nothing is retried. *)
Theorem poll_rejects_on_failed_lookup (k fuel : nat) (error : exn) :
  (forall n, n < k -> pending w txId n) ->
  reported w txId k = Throw error ->
  k <= maxRetries -> k < fuel ->
  waitForTransaction fuel w txId =
  Some (Throw error,
        (repeat (StatusRequest txId) (S k) ++ [ClearInterval])%list).
Proof.
  intros Hpending Hfail Hk Hfuel. unfold waitForTransaction.
  apply (poll_runs k fuel 0); [ | | exact Hfuel].
  - intros n Hn. split; [apply Hpending | ]; lia.
  - unfold settles. cbn [Nat.add]. now rewrite Hfail.
Qed.

(** X3: with every lookup answered before the timer fires again, the
    promise is resolved exactly when one of the first 16 lookups reports
    [success] or [failed] and every lookup before it answered with a
    status that is not terminal; the poll then stops at that lookup. *)
Theorem poll_resolves_iff (fuel : nat) :
  maxRetries < fuel ->
  forall tr,
    waitForTransaction fuel w txId = Some (Ok tt, tr) <->
    exists k tx_status,
      k <= maxRetries /\
      (forall n, n < k -> pending w txId n) /\
      reported w txId k = Ok tx_status /\
      (tx_status = VString "success" \/ tx_status = VString "failed") /\
      tr = (repeat (StatusRequest txId) (S k) ++ [ClearInterval])%list.
Proof.
  intros Hfuel tr. unfold waitForTransaction. split.
  - intros Hpoll. apply poll_inversion in Hpoll as (k & -> & Hpending & Hsettles).
    cbn [Nat.add] in *. unfold settles in Hsettles.
    destruct (reported w txId k) as [tx_status | error] eqn:Hrep; [ | discriminate].
    destruct (terminal tx_status) eqn:Hterm; [ | now destruct Hsettles].
    exists k, tx_status.
    split; [ | split; [ | split; [exact Hrep | split; [now apply terminal_spec | reflexivity]]]].
    + destruct k as [ | k]; [lia | ]. destruct (Hpending k); lia.
    + intros n Hn. apply Hpending. lia.
  - intros (k & tx_status & Hk & Hpending & Hrep & Hstatus & ->).
    apply (poll_runs k fuel 0); [ | | lia].
    + intros n Hn. split; [apply Hpending; lia | lia].
    + unfold settles. cbn [Nat.add]. rewrite Hrep.
      apply terminal_spec in Hstatus. now rewrite Hstatus.
Qed.

End PollOutcome.

(** ** The interval, moment by moment *)

Section IntervalFacts.
Variables (w : World) (txId : string).

Lemma repeat_snoc {A : Type} (x : A) (n : nat) :
  (repeat x n ++ [x])%list = repeat x (S n).
Proof. cbn [repeat]. now rewrite repeat_cons. Qed.

(** A round answered in turn whose answer is not terminal, with the counter
    below [maxRetries], leaves the interval polling. *)
Lemma round_goes_on (i : nat) :
  pending w txId i -> i < maxRetries ->
  fold_left (moment_step w txId) [Tick; Answer i] (still_polling txId i)
  = still_polling txId (S i).
Proof.
  intros (tx_status & Hrep & Hterm) Hlt.
  unfold reported in Hrep. unfold terminal in Hterm.
  cbn [fold_left moment_step]. unfold tick, answer, still_polling.
  cbn [iv_live iv_waiting iv_sent iv_retries iv_promise iv_log app existsb filter].
  rewrite Nat.eqb_refl. cbn [orb negb]. rewrite Hrep, Hterm.
  destruct (Nat.leb_spec maxRetries i) as [Hge | _]; [lia | ].
  now rewrite repeat_snoc.
Qed.

Lemma rounds_go_on (k first : nat) :
  (forall n, first <= n < first + k -> pending w txId n /\ n < maxRetries) ->
  fold_left (moment_step w txId) (rounds_in_turn first k) (still_polling txId first)
  = still_polling txId (first + k).
Proof.
  revert first. induction k as [ | k IH]; intros first Hpending.
  - now rewrite Nat.add_0_r.
  - unfold rounds_in_turn. cbn [seq flat_map]. rewrite fold_left_app.
    destruct (Hpending first) as [Hp Hlt]; [lia | ].
    rewrite (round_goes_on first Hp Hlt).
    fold (rounds_in_turn (S first) k). rewrite IH.
    + now rewrite Nat.add_succ_comm.
    + intros n Hn. apply Hpending. lia.
Qed.

(** A round answered in turn whose answer settles the poll clears the
    interval. *)
Lemma round_settles (i : nat) (outcome : result unit) :
  settles w txId i outcome ->
  exists retries,
    fold_left (moment_step w txId) [Tick; Answer i] (still_polling txId i)
    = {| iv_retries := retries; iv_live := false; iv_sent := S i;
         iv_waiting := []; iv_promise := Some outcome;
         iv_log := lookups txId (S i) |}.
Proof.
  unfold settles, reported, terminal, lookups. intros Hsettles.
  cbn [fold_left moment_step]. unfold tick, answer, still_polling, clear_and_settle.
  cbn [iv_live iv_waiting iv_sent iv_retries iv_promise iv_log app existsb filter].
  rewrite Nat.eqb_refl. cbn [orb negb settle].
  destruct (data <- tx_lookup w txId i;; member data "tx_status")
    as [tx_status | error].
  - destruct (is_string tx_status "success" || is_string tx_status "failed").
    + subst outcome. eexists. now rewrite repeat_snoc.
    + destruct Hsettles as [Hge ->].
      destruct (Nat.leb_spec maxRetries i) as [_ | Hlt]; [ | lia].
      eexists. now rewrite repeat_snoc.
  - subst outcome. eexists. now rewrite repeat_snoc.
Qed.

(** Once the interval is cleared and no request is waiting, nothing
    happens any more. *)
Lemma cleared_is_final (s : Interval) (moments : list moment) :
  iv_live s = false -> iv_waiting s = [] ->
  fold_left (moment_step w txId) moments s = s.
Proof.
  intros Hlive Hwaiting. induction moments as [ | m moments IH]; [reflexivity | ].
  cbn [fold_left]. destruct m as [ | n]; cbn [moment_step].
  - unfold tick. now rewrite Hlive.
  - unfold answer. rewrite Hwaiting. exact IH.
Qed.

Lemma rounds_in_turn_app (first k j : nat) :
  rounds_in_turn first (k + j)
  = (rounds_in_turn first k ++ rounds_in_turn (first + k) j)%list.
Proof.
  unfold rounds_in_turn. now rewrite seq_app, flat_map_app.
Qed.

(** X23: when every request is answered before the timer fires again, the
    interval behaves as the sequential poll does.  Whatever [poll] returns,
    the run of the interval over [k] rounds answered in turn, for any [k]
    not below the number of lookups, has settled the promise with the same
    outcome, has left the same trace, has cleared the timer, waits for no
    answer, and has sent as many requests as the trace shows. *)
Theorem in_turn_run_is_poll
    (fuel : nat) (outcome : result unit) (tr : list event) (k : nat) :
  waitForTransaction fuel w txId = Some (outcome, tr) ->
  length (filter is_status_request tr) <= k ->
  iv_promise (interval_run w txId (in_turn k)) = Some outcome /\
  iv_log (interval_run w txId (in_turn k)) = tr /\
  iv_live (interval_run w txId (in_turn k)) = false /\
  iv_waiting (interval_run w txId (in_turn k)) = [] /\
  iv_sent (interval_run w txId (in_turn k)) = length (filter is_status_request tr).
Proof.
  unfold waitForTransaction. intros Hpoll Hk.
  apply poll_inversion in Hpoll as (j & -> & Hpending & Hsettles).
  cbn [Nat.add] in Hpending, Hsettles.
  destruct (lookups_counts txId (S j)) as [Hcount _]. rewrite Hcount in *.
  destruct (round_settles j outcome Hsettles) as (retries & Hround).
  assert (Hrun : interval_run w txId (in_turn k)
                 = {| iv_retries := retries; iv_live := false; iv_sent := S j;
                      iv_waiting := []; iv_promise := Some outcome;
                      iv_log := lookups txId (S j) |}).
  { replace k with (j + (1 + (k - S j))) by lia.
    unfold interval_run, in_turn.
    rewrite !rounds_in_turn_app, !fold_left_app. cbn [Nat.add].
    change interval_start with (still_polling txId 0).
    rewrite (rounds_go_on j 0 Hpending). cbn [Nat.add].
    change (rounds_in_turn j 1) with [Tick; Answer j].
    rewrite Hround. now apply cleared_is_final. }
  rewrite Hrun. repeat split.
Qed.

(** The interval, one answer behind the timer, after [i] answers none of
    which ended the poll. *)
Lemma behind_goes_on (i : nat) :
  pending w txId i -> i < maxRetries ->
  fold_left (moment_step w txId) [Tick; Answer i] (polling_behind txId i)
  = polling_behind txId (S i).
Proof.
  intros (tx_status & Hrep & Hterm) Hlt.
  unfold reported in Hrep. unfold terminal in Hterm.
  cbn [fold_left moment_step]. unfold tick, answer, polling_behind.
  cbn [iv_live iv_waiting iv_sent iv_retries iv_promise iv_log app existsb filter].
  rewrite Nat.eqb_refl. cbn [orb negb]. rewrite Hrep, Hterm.
  replace (i =? S i)%nat with false by (symmetry; apply Nat.eqb_neq; lia).
  cbn [negb].
  destruct (Nat.leb_spec maxRetries i) as [Hge | _]; [lia | ].
  now rewrite repeat_snoc.
Qed.

Lemma behind_go_on (k first : nat) :
  (forall n, pending w txId n) -> first + k <= maxRetries ->
  fold_left (moment_step w txId) (rounds_in_turn first k) (polling_behind txId first)
  = polling_behind txId (first + k).
Proof.
  intros Hpending. revert first. induction k as [ | k IH]; intros first Hle.
  - now rewrite Nat.add_0_r.
  - unfold rounds_in_turn. cbn [seq flat_map]. rewrite fold_left_app.
    rewrite (behind_goes_on first (Hpending first)) by lia.
    fold (rounds_in_turn (S first) k). rewrite IH by lia.
    now rewrite Nat.add_succ_comm.
Qed.

Lemma behind_times_out (i : nat) :
  pending w txId i -> pending w txId (S i) -> maxRetries <= i ->
  fold_left (moment_step w txId) [Tick; Answer i; Tick; Answer (S i)]
    (polling_behind txId i)
  = {| iv_retries := S (S i); iv_live := false; iv_sent := S (S i);
       iv_waiting := []; iv_promise := Some (Throw timed_out);
       iv_log := (repeat (StatusRequest txId) (S (S i))
                  ++ [ClearInterval; ClearInterval])%list |}.
Proof.
  intros (s1 & Hrep1 & Hterm1) (s2 & Hrep2 & Hterm2) Hge.
  unfold reported in Hrep1, Hrep2. unfold terminal in Hterm1, Hterm2.
  cbn [fold_left moment_step]. unfold tick, answer, polling_behind, clear_and_settle.
  cbn [iv_live iv_waiting iv_sent iv_retries iv_promise iv_log app existsb filter].
  rewrite Nat.eqb_refl. cbn [orb negb]. rewrite Hrep1, Hterm1.
  replace (i =? S i)%nat with false by (symmetry; apply Nat.eqb_neq; lia).
  destruct (Nat.leb_spec maxRetries i) as [_ | Hlt]; [ | lia].
  cbn [iv_live iv_waiting iv_sent iv_retries iv_promise iv_log app existsb filter negb].
  rewrite Nat.eqb_refl. cbn [orb negb]. rewrite Hrep2, Hterm2.
  destruct (Nat.leb_spec maxRetries (S i)) as [_ | Hlt]; [ | lia].
  cbn [settle]. rewrite repeat_snoc, <- app_assoc. reflexivity.
Qed.

Lemma one_behind_unfold (k j : nat) :
  interval_run w txId (one_behind (k + j))
  = fold_left (moment_step w txId) (rounds_in_turn k j)
      (fold_left (moment_step w txId) (rounds_in_turn 0 k) (polling_behind txId 0)).
Proof.
  unfold interval_run, one_behind, in_turn.
  rewrite rounds_in_turn_app. cbn [fold_left]. now rewrite fold_left_app.
Qed.

(** X24: the bound of 16 lookups rests on the answers arriving before the
    next tick.  When every answer arrives just after the timer has fired
    once more and no answer is terminal, the counter is one behind the
    requests: the interval sends 17 requests, rejects with the time-out at
    the 16th answer, and clears the timer a second time at the 17th. *)
Theorem one_behind_sends_more :
  (forall n, pending w txId n) ->
  interval_run w txId (one_behind 17)
  = {| iv_retries := 17; iv_live := false; iv_sent := 17; iv_waiting := [];
       iv_promise := Some (Throw timed_out);
       iv_log := (repeat (StatusRequest txId) 17
                  ++ [ClearInterval; ClearInterval])%list |}.
Proof.
  intros Hpending.
  pose proof (one_behind_unfold 15 2) as Hrun. cbn [Nat.add] in Hrun. rewrite Hrun.
  rewrite (behind_go_on 15 0 Hpending) by (unfold maxRetries; lia).
  apply (behind_times_out 15); auto.
Qed.

End IntervalFacts.

(** ** The decode, further *)

Section DecodeInvariants.
Context {host : Host}.

Lemma or_string_not_empty (s : string) : or_string s placeholder <> "".
Proof.
  unfold or_string. destruct (String.eqb_spec s ""); [discriminate | assumption].
Qed.

(** X4: a decoded campaign carries the index it was decoded at, never has
    an empty title or an empty description, and its owner is either the
    empty string or a truthy value (never null, undefined, false, 0 or
    NaN). *)
Theorem parseCampaign_invariant (json : value) (index : nat) (c : Campaign) :
  parseCampaign json index = Ok c ->
  id c = index /\
  title c <> "" /\ description c <> "" /\
  (owner c = VString "" \/ to_boolean (owner c) = true).
Proof.
  intros H. apply parseCampaign_spec in H
    as (s1 & s2 & n1 & n2 & n3 & _ & _ & _ & _ & _ & ->).
  cbn [decoded id title description owner].
  split; [reflexivity | ].
  split; [apply or_string_not_empty | split; [apply or_string_not_empty | ]].
  unfold or_value.
  destruct (to_boolean (opt_member (get (campaign_data json) "owner") "value")) eqn:Ht;
    [right; exact Ht | now left].
Qed.

(** X5: a raw structure none of whose fields is there (the answer for a
    campaign that does not exist, [null], an empty tuple) does not make
    the decode fail: it decodes to the blank campaign of that index. *)
Theorem parseCampaign_blank (json : value) (index : nat) :
  (forall k, absent json k) ->
  parseCampaign json index = Ok (blank_campaign index).
Proof.
  intros Habsent. unfold absent in Habsent. apply parseCampaign_spec.
  exists "", "", 0%float, 0%float, 0%float.
  rewrite !Habsent. repeat split.
  unfold decoded. now rewrite !Habsent.
Qed.

Lemma primitive_printable (v : value) : primitive v = true -> printable v = true.
Proof. destruct v; simpl; congruence. Qed.

Lemma primitive_fields_decodable (json : value) :
  primitive_fields json = true -> decodable json = true.
Proof.
  unfold primitive_fields, decodable. rewrite !forallb_forall.
  intros H k Hk. apply primitive_printable. now apply H.
Qed.

(** The ids of the batch decode from [start] on. *)
Lemma decode_ids (rs : list value) (start : nat) :
  exists picked,
    map id (drop_null (map fst (map_index decode_one start rs))) = picked /\
    StronglySorted lt picked /\
    Forall (fun i => start <= i < start + length rs) picked.
Proof.
  revert start. induction rs as [ | r rs IH]; intros start.
  - exists []. repeat constructor.
  - destruct (IH (S start)) as (picked & Hpicked & Hsorted & Hrange).
    assert (Hrange' : Forall (fun i => start <= i < start + length (r :: rs)) picked).
    { eapply Forall_impl; [ | exact Hrange]. simpl. intros i Hi. lia. }
    cbn [map_index map fst]. unfold decode_one at 1.
    destruct (parseCampaign r start) as [c | e] eqn:Hparse; cbn [fst drop_null map].
    + exists (id c :: picked). rewrite Hpicked.
      pose proof (parseCampaign_id _ _ _ Hparse) as Hid.
      split; [reflexivity | split].
      * constructor; [exact Hsorted | ].
        eapply Forall_impl; [ | exact Hrange]. simpl. intros i Hi. lia.
      * constructor; [simpl; lia | exact Hrange'].
    + exists picked. auto.
Qed.

Lemma StronglySorted_lt_NoDup (l : list nat) : StronglySorted lt l -> NoDup l.
Proof.
  induction 1 as [ | a l Hs IH Hall]; constructor; [ | exact IH].
  intros Hin. rewrite Forall_forall in Hall. specialize (Hall a Hin). lia.
Qed.

(** The ids that the batch decode keeps increase and are indices. *)
Lemma decode_ids_sorted (campaignResults : list value) :
  StronglySorted lt (map id (fst (decode_campaigns campaignResults))) /\
  Forall (fun i => i < length campaignResults)
         (map id (fst (decode_campaigns campaignResults))).
Proof.
  unfold decode_campaigns; cbn [fst].
  destruct (decode_ids campaignResults 0) as (picked & Hpicked & Hsorted & Hrange).
  rewrite Hpicked. split; [exact Hsorted | ].
  eapply Forall_impl; [ | exact Hrange]. simpl. intros i Hi. lia.
Qed.

(** X6: the campaigns that the batch decode keeps have ids that increase
    strictly along the list, hence pairwise distinct ids, each the index
    of a response; there are at most as many of them as responses. *)
Theorem decode_campaigns_ids (campaignResults : list value) :
  StronglySorted lt (map id (fst (decode_campaigns campaignResults))) /\
  NoDup (map id (fst (decode_campaigns campaignResults))) /\
  Forall (fun i => i < length campaignResults)
         (map id (fst (decode_campaigns campaignResults))) /\
  length (fst (decode_campaigns campaignResults)) <= length campaignResults.
Proof.
  destruct (decode_ids_sorted campaignResults) as [Hsorted Hrange].
  assert (Hnodup : NoDup (map id (fst (decode_campaigns campaignResults))))
    by now apply StronglySorted_lt_NoDup.
  split; [exact Hsorted | split; [exact Hnodup | split; [exact Hrange | ]]].
  rewrite <- (length_map id (fst (decode_campaigns campaignResults))).
  rewrite <- (length_seq (length campaignResults) 0).
  apply NoDup_incl_length; [exact Hnodup | ].
  intros i Hi. rewrite Forall_forall in Hrange. apply in_seq.
  specialize (Hrange i Hi). simpl in Hrange. lia.
Qed.

Lemma decode_all (rs : list value) (start : nat) :
  Forall (fun json => decodable json = true) rs ->
  map id (drop_null (map fst (map_index decode_one start rs))) = seq start (length rs) /\
  concat (map snd (map_index decode_one start rs)) = [].
Proof.
  intros Hall. revert start. induction Hall as [ | r rs Hr _ IH]; intros start.
  - split; reflexivity.
  - destruct (IH (S start)) as [Hids Hlog].
    cbn [map_index map fst snd concat length seq]. unfold decode_one at 1 3.
    apply (parseCampaign_returns r start) in Hr as [c Hc]. rewrite Hc.
    cbn [fst snd drop_null map app]. rewrite Hids, Hlog.
    now rewrite (parseCampaign_id _ _ _ Hc).
Qed.

(** X7: when the converted fields of every response hold primitive values
    (strings, numbers, booleans, null) or are absent, the batch decode
    drops nothing and logs nothing: the kept campaigns have the ids
    0, 1, ..., n-1 in this order. *)
Theorem decode_campaigns_keeps_primitive (campaignResults : list value) :
  Forall (fun json => primitive_fields json = true) campaignResults ->
  map id (fst (decode_campaigns campaignResults)) = seq 0 (length campaignResults) /\
  length (fst (decode_campaigns campaignResults)) = length campaignResults /\
  snd (decode_campaigns campaignResults) = [].
Proof.
  intros Hall.
  assert (Hdec : Forall (fun json => decodable json = true) campaignResults).
  { eapply Forall_impl; [ | exact Hall]. apply primitive_fields_decodable. }
  destruct (decode_all campaignResults 0 Hdec) as [Hids Hlog].
  unfold decode_campaigns; cbn [fst snd]. split; [exact Hids | split; [ | exact Hlog]].
  now rewrite <- (length_map id), Hids, length_seq.
Qed.

End DecodeInvariants.

(** ** The refresh, whatever the chain answers *)

Section RefreshOutcome.
Context {host : Host}.
Variables (fuel : nat) (w : World) (st : Page).

(** The three ways a refresh ends: before the statistics are stored, after
    them with the campaign lookups rejected, or with the campaigns
    stored. *)
Lemma fetch_cases (st' : Page) (tr : list event) :
  fetchAllData fuel w st = Some (st', tr) ->
  (exists error,
     st' = setLoading false (setLoading true st) /\
     tr = (stats_trace ++ [ConsoleError fetch_error error; SetLoading false])%list) \/
  (exists stats indices error,
     campaign_answers w indices = Throw error /\
     st' = setLoading false (setGlobalStats stats (setLoading true st)) /\
     tr = ((stats_trace ++ [SetGlobalStats stats])
             ++ campaign_calls indices
             ++ [ConsoleError fetch_error error; SetLoading false])%list) \/
  (exists stats indices campaignResults,
     campaign_answers w indices = Ok campaignResults /\
     st' = setLoading false
             (setCampaigns (fst (decode_campaigns campaignResults))
                (setGlobalStats stats (setLoading true st))) /\
     tr = ((stats_trace ++ [SetGlobalStats stats])
             ++ campaign_calls indices
             ++ snd (decode_campaigns campaignResults)
             ++ [SetCampaigns (fst (decode_campaigns campaignResults));
                 SetLoading false])%list).
Proof.
  intros Hfetch.
  destruct (stats_answers w) as [answers | error] eqn:Hstats.
  2: { rewrite (fetch_stats_rejected fuel w st error Hstats) in Hfetch.
       injection Hfetch as <- <-. left. exists error. split; reflexivity. }
  destruct (decode_stats answers) as [stats | error] eqn:Hdecode.
  2: { rewrite (fetch_stats_undecoded fuel w st answers error Hstats Hdecode) in Hfetch.
       injection Hfetch as <- <-. left. exists error. split; reflexivity. }
  destruct (campaign_indices fuel 0 (totalCampaigns stats)) as [indices | ] eqn:Hindices.
  2: { unfold fetchAllData in Hfetch. unfold stats_answers in Hstats.
       rewrite Hstats, Hdecode, Hindices in Hfetch. discriminate. }
  destruct (campaign_answers w indices) as [campaignResults | error] eqn:Hcampaigns.
  - rewrite (fetch_succeeds fuel w st answers stats indices campaignResults
               Hstats Hdecode Hindices Hcampaigns) in Hfetch.
    injection Hfetch as <- <-. right. right. exists stats, indices, campaignResults. auto.
  - rewrite (fetch_campaigns_rejected fuel w st answers stats indices error
               Hstats Hdecode Hindices Hcampaigns) in Hfetch.
    injection Hfetch as <- <-. right. left. exists stats, indices, error. auto.
Qed.

Lemma last_of_two {A : Type} (l : list A) (a b d : A) : last (l ++ [a; b]) d = b.
Proof.
  change [a; b] with ([a] ++ [b])%list. rewrite app_assoc. apply last_last.
Qed.

(** How a refresh that has ended leaves the page and its trace. *)
Lemma fetch_outcome_frame (st' : Page) (tr : list event) :
  fetchAllData fuel w st = Some (st', tr) ->
  loading st' = false /\
  hd ClearInterval tr = SetLoading true /\
  last tr ClearInterval = SetLoading false /\
  user st' = user st /\
  closingCampaign st' = closingCampaign st /\
  currentBlockHeight st' = currentBlockHeight st /\
  Forall (fun ev => refresh_event ev = true) tr.
Proof.
  intros Hfetch. apply fetch_cases in Hfetch
    as [(error & -> & ->) | [(stats & indices & error & _ & -> & ->)
                            | (stats & indices & rs & _ & -> & ->)]];
    (split; [reflexivity | split; [reflexivity | split;
       [rewrite ?app_assoc; apply last_of_two
       | split; [reflexivity | split; [reflexivity | split; [reflexivity | ]]]]]]);
    repeat (apply Forall_app; split);
    try apply stats_trace_refresh; try apply campaign_calls_refresh;
    try apply decode_log_refresh; repeat constructor.
Qed.

Lemma stats_trace_loading : filter is_set_loading stats_trace = [SetLoading true].
Proof. reflexivity. Qed.

Lemma campaign_calls_no_loading (indices : list nat) :
  filter is_set_loading (campaign_calls indices) = [].
Proof. induction indices; simpl; auto. Qed.

Lemma decode_log_no_loading (rs : list value) (start : nat) :
  filter is_set_loading (concat (map snd (map_index decode_one start rs))) = [].
Proof.
  revert start. induction rs as [ | r rs IH]; intros start; [reflexivity | ].
  cbn [map_index map snd concat]. rewrite filter_app, IH, app_nil_r.
  unfold decode_one. now destruct (parseCampaign r start).
Qed.

(** X8: a refresh that has ended has put the loading flag up first and
    down last, and changed it at no other moment; it leaves the flag
    down, and has not touched the session, the closing mark or the tip
    height; its trace holds nothing but its own state changes, read-only
    calls and console lines: it shows no alert, asks the wallet nothing
    and looks up no transaction. *)
Theorem fetch_brackets_loading (st' : Page) (tr : list event) :
  fetchAllData fuel w st = Some (st', tr) ->
  filter is_set_loading tr = [SetLoading true; SetLoading false] /\
  loading st' = false /\
  hd ClearInterval tr = SetLoading true /\
  last tr ClearInterval = SetLoading false /\
  user st' = user st /\
  closingCampaign st' = closingCampaign st /\
  currentBlockHeight st' = currentBlockHeight st /\
  Forall (fun ev => refresh_event ev = true) tr.
Proof.
  intros Hfetch. split; [ | now apply fetch_outcome_frame].
  apply fetch_cases in Hfetch
    as [(error & _ & ->) | [(stats & indices & error & _ & _ & ->)
                           | (stats & indices & rs & _ & _ & ->)]];
    rewrite !filter_app, stats_trace_loading, ?campaign_calls_no_loading;
    try reflexivity.
  unfold decode_campaigns; cbn [snd]. now rewrite decode_log_no_loading.
Qed.

(** X9: a statistics answer that cannot be converted (a [null] answer, a
    value that is an object with a [toString] key) is handled as a network
    failure is: it is written to the error log, and the campaign list and
    the global stats keep their prior values; no campaign is asked for. *)
Theorem fetch_stats_conversion_failure (answers : list value) (error : exn) :
  stats_answers w = Ok answers ->
  decode_stats answers = Throw error ->
  exists st' tr,
    fetchAllData fuel w st = Some (st', tr) /\
    campaigns st' = campaigns st /\
    globalStats st' = globalStats st /\
    loading st' = false /\
    In (ConsoleError fetch_error error) tr /\
    filter is_read_only_call tr
      = map (fun fn => ReadOnlyCall fn None) stats_functions.
Proof.
  intros Hstats Hdecode. do 2 eexists.
  split; [eapply fetch_stats_undecoded; eassumption | ].
  split; [reflexivity | split; [reflexivity | split; [reflexivity | split]]].
  - apply in_or_app. right. now left.
  - rewrite filter_app. reflexivity.
Qed.

(** X10: when the statistics arrive and the campaign count is not above
    zero (zero, a negative number, NaN), the refresh asks for no campaign
    and stores the empty list, whatever the list was. *)
Theorem fetch_without_campaigns (answers : list value) (stats : GlobalStats) :
  stats_answers w = Ok answers ->
  decode_stats answers = Ok stats ->
  PrimFloat.ltb 0 (totalCampaigns stats) = false ->
  0 < fuel ->
  exists st' tr,
    fetchAllData fuel w st = Some (st', tr) /\
    campaigns st' = [] /\
    globalStats st' = stats /\
    filter is_read_only_call tr
      = map (fun fn => ReadOnlyCall fn None) stats_functions.
Proof.
  intros Hstats Hdecode Hcount Hfuel.
  assert (Hindices : campaign_indices fuel 0 (totalCampaigns stats) = Some []).
  { destruct fuel as [ | fuel']; [lia | ]. simpl.
    change (float_of_nat 0) with 0%float. now rewrite Hcount. }
  do 2 eexists.
  split; [eapply fetch_succeeds; try eassumption; reflexivity | ].
  split; [reflexivity | split; [reflexivity | ]].
  rewrite !filter_app. reflexivity.
Qed.

End RefreshOutcome.

Section RefreshIds.
Context {host : Host}.

(** X11: a refresh keeps the ids of the displayed campaigns pairwise
    distinct: it either leaves the list as it was or replaces it by a
    list whose ids increase strictly. *)
Theorem fetch_keeps_ids_distinct
    (fuel : nat) (w : World) (st st' : Page) (tr : list event) :
  fetchAllData fuel w st = Some (st', tr) ->
  NoDup (map id (campaigns st)) ->
  NoDup (map id (campaigns st')) /\
  (campaigns st' = campaigns st \/ StronglySorted lt (map id (campaigns st'))).
Proof.
  intros Hfetch Hnodup. apply fetch_cases in Hfetch
    as [(error & -> & _) | [(stats & indices & error & _ & -> & _)
                           | (stats & indices & rs & _ & -> & _)]];
    cbn [campaigns setLoading setGlobalStats setCampaigns].
  - auto.
  - auto.
  - split; [apply StronglySorted_lt_NoDup | right]; apply decode_ids_sorted.
Qed.

End RefreshIds.

(** ** The submission, whatever the world does *)

Lemma polling_event_filter (txId : string) (tr : list event) (f : event -> bool) :
  f (StatusRequest txId) = false -> f ClearInterval = false ->
  (exists n, tr = lookups txId n) -> filter f tr = [].
Proof.
  intros H1 H2 [n ->]. unfold lookups. rewrite filter_app. cbn [filter].
  rewrite H2, app_nil_r. induction n as [ | n IH]; [reflexivity | ].
  cbn [repeat filter]. now rewrite H1.
Qed.

Section SubmitOutcome.
Context {host : Host}.
Variables (fuel : nat) (w : World).

(** The two ways the callback ends. *)
Lemma onFinish_cases (st st' : Page) (txId : string) (tr : list event) :
  onFinish fuel w st txId = Some (st', tr) ->
  exists n,
    (exists error,
       st' = st /\
       tr = (Alert broadcast_notice :: lookups txId n
             ++ [ConsoleError "Transaction confirmation failed:" error;
                 Alert failure_notice])%list) \/
    (exists refreshed,
       fetchAllData fuel w st = Some (st', refreshed) /\
       tr = (Alert broadcast_notice :: lookups txId n ++ refreshed
             ++ [Alert success_notice])%list).
Proof.
  unfold onFinish, waitForTransaction. intros Hret.
  destruct (poll fuel w txId 0) as [[outcome polled] | ] eqn:Hpoll; [ | discriminate].
  apply poll_inversion in Hpoll as (k & -> & _ & _).
  exists (S k). destruct outcome as [[] | error].
  - destruct (fetchAllData fuel w st) as [[st1 refreshed] | ]; [ | discriminate].
    injection Hret as <- <-. right. exists refreshed. auto.
  - injection Hret as <- <-. left. exists error. auto.
Qed.

Lemma refresh_not_alert (ev : event) :
  refresh_event ev = true -> is_alert ev = false.
Proof. destruct ev; simpl; congruence. Qed.

Lemma refresh_not_status (ev : event) :
  refresh_event ev = true -> is_status_request ev = false.
Proof. destruct ev; simpl; congruence. Qed.

(** X12: a confirmation callback that has ended has shown exactly two
    alerts: the broadcast notice first, and then either the failure
    notice, with the page state as it was and no read-only call made, or
    the success notice, after a refresh that has left the loading flag
    down. *)
Theorem onFinish_two_alerts (st st' : Page) (txId : string) (tr : list event) :
  onFinish fuel w st txId = Some (st', tr) ->
  (filter is_alert tr = [Alert broadcast_notice; Alert failure_notice] /\
   st' = st /\ filter is_read_only_call tr = []) \/
  (filter is_alert tr = [Alert broadcast_notice; Alert success_notice] /\
   loading st' = false /\ In (SetLoading true) tr /\
   user st' = user st).
Proof.
  intros Hfinish. apply onFinish_cases in Hfinish
    as (n & [(error & -> & ->) | (refreshed & Hfetch & ->)]).
  - left. cbn [filter is_alert is_read_only_call]. rewrite !filter_app.
    rewrite !(polling_event_filter txId (lookups txId n)); eauto.
  - right. apply fetch_outcome_frame in Hfetch
      as (Hloading & Hhd & _ & Huser & _ & _ & Hrefresh).
    cbn [filter is_alert]. rewrite !filter_app.
    rewrite (polling_event_filter txId (lookups txId n)); eauto.
    rewrite (refresh_event_quiet refreshed _ refresh_not_alert Hrefresh).
    split; [reflexivity | split; [exact Hloading | split; [ | exact Huser]]].
    right. apply in_or_app. right. apply in_or_app. left.
    destruct refreshed as [ | ev rest]; [discriminate | ].
    cbn [hd] in Hhd. subst ev. now left.
Qed.

Lemma onFinish_opens_nothing (st st' : Page) (txId : string) (tr : list event) :
  onFinish fuel w st txId = Some (st', tr) ->
  filter is_open_contract_call tr = [] /\
  user st' = user st /\ closingCampaign st' = closingCampaign st /\
  currentBlockHeight st' = currentBlockHeight st.
Proof.
  intros Hfinish. apply onFinish_cases in Hfinish
    as (n & [(error & -> & ->) | (refreshed & Hfetch & ->)]).
  - cbn [filter is_open_contract_call]. rewrite !filter_app.
    rewrite (polling_event_filter txId (lookups txId n)); eauto.
  - apply fetch_outcome_frame in Hfetch
      as (_ & _ & _ & Huser & Hclosing & Hheight & Hrefresh).
    cbn [filter is_open_contract_call]. rewrite !filter_app.
    rewrite (polling_event_filter txId (lookups txId n)); eauto.
    now rewrite (refresh_event_quiet refreshed _ refresh_not_open Hrefresh).
Qed.

Lemma refresh_not_closing (ev : event) :
  refresh_event ev = true -> is_set_closing ev = false.
Proof. destruct ev; simpl; congruence. Qed.

Lemma onFinish_keeps_mark (st st' : Page) (txId : string) (tr : list event) :
  onFinish fuel w st txId = Some (st', tr) ->
  filter is_set_closing tr = [].
Proof.
  intros Hfinish. apply onFinish_cases in Hfinish
    as (n & [(error & -> & ->) | (refreshed & Hfetch & ->)]).
  - cbn [filter is_set_closing]. rewrite !filter_app.
    rewrite (polling_event_filter txId (lookups txId n)); eauto.
  - apply fetch_outcome_frame in Hfetch as (_ & _ & _ & _ & _ & _ & Hrefresh).
    cbn [filter is_set_closing]. rewrite !filter_app.
    rewrite (polling_event_filter txId (lookups txId n)); eauto.
    now rewrite (refresh_event_quiet refreshed _ refresh_not_closing Hrefresh).
Qed.

(** The two shapes of a run of [handleCloseCampaign] that has ended.
    Either nothing is asked of the wallet and no status is looked up: a
    guard has turned the attempt down, the user has declined, or the call
    could not be built.  Or the guards have passed, the user has
    confirmed, the call is built, and the trace is the prompt, the mark,
    the request to the wallet, what a throwing wallet leaves, the clearing
    of the mark, and what follows it. *)
Lemma handle_shape (st st' : Page) (campaignId : nat) (tr : list event) :
  handleCloseCampaign fuel w st campaignId = Some (st', tr) ->
  (filter is_open_contract_call tr = [] /\
   filter is_status_request tr = [] /\
   forall u campaign call,
     user st = Some u ->
     find_campaign (campaigns st) campaignId = Some campaign ->
     owner campaign = VString (stxAddress_testnet u) ->
     confirm w (confirmationMessage campaign) = true ->
     close_call campaign campaignId = Ok call -> False) \/
  exists u campaign call thrown finished,
    user st = Some u /\
    find_campaign (campaigns st) campaignId = Some campaign /\
    owner campaign = VString (stxAddress_testnet u) /\
    confirm w (confirmationMessage campaign) = true /\
    close_call campaign campaignId = Ok call /\
    tr = ([ConfirmPrompt (confirmationMessage campaign);
           SetClosingCampaign (Some campaignId);
           OpenContractCall call]
          ++ thrown ++ SetClosingCampaign None :: finished)%list /\
    filter is_open_contract_call thrown = [] /\
    filter is_status_request thrown = [] /\
    filter is_set_closing thrown = [] /\
    filter is_open_contract_call finished = [] /\
    filter is_set_closing finished = [].
Proof.
  unfold handleCloseCampaign.
  destruct (user st) as [u | ] eqn:Hu.
  2: { intros H. injection H as <- <-. left. repeat split. discriminate. }
  destruct (find_campaign (campaigns st) campaignId) as [campaign | ] eqn:Hfind.
  2: { intros H. injection H as <- <-. left. repeat split. discriminate. }
  destruct (is_string (owner campaign) (stxAddress_testnet u)) eqn:Howner; cbn [negb].
  2: { intros H. injection H as <- <-. left. repeat split.
       intros u0 c0 call Hu0 Hc0 Hown _ _.
       injection Hu0 as <-. injection Hc0 as <-.
       apply is_string_spec in Hown. congruence. }
  destruct (confirm w (confirmationMessage campaign)) eqn:Hconfirm; cbn [negb].
  2: { intros H. injection H as <- <-. left. repeat split.
       intros u0 c0 call _ Hc0 _ Hyes _. injection Hc0 as <-. congruence. }
  apply is_string_spec in Howner.
  destruct (close_call campaign campaignId) as [call | error] eqn:Hcall.
  2: { intros H. injection H as <- <-. left. repeat split.
       intros u0 c0 call _ Hc0 _ _ Hbuilt. injection Hc0 as <-. congruence. }
  destruct (wallet w call) as [error | | txId].
  - intros H. injection H as <- <-. right.
    exists u, campaign, call,
      [ConsoleError "Failed to finalize campaign:" error; Alert finalize_notice], [].
    repeat split; assumption.
  - intros H. injection H as <- <-. right.
    exists u, campaign, call, [], [ConsoleLog "Campaign finalization cancelled"].
    repeat split; assumption.
  - destruct (onFinish fuel w _ txId) as [[st1 finished] | ] eqn:Hfinish; [ | discriminate].
    intros H. injection H as <- <-. right. exists u, campaign, call, [], finished.
    pose proof (onFinish_keeps_mark _ _ _ _ Hfinish) as Hmark.
    apply onFinish_opens_nothing in Hfinish as (Hquiet & _).
    repeat split; assumption.
Qed.

(** X13: a run of [handleCloseCampaign] asks the wallet for a contract call
    exactly when there is a session, the campaign is on the page, its owner
    is the session's address, the user has confirmed the prompt and the
    call could be built; the call asked for is the one built from that
    campaign, and it is asked for once. *)
Theorem close_opens_only_when_authorized
    (st st' : Page) (campaignId : nat) (tr : list event) :
  handleCloseCampaign fuel w st campaignId = Some (st', tr) ->
  (forall call,
     In (OpenContractCall call) tr ->
     filter is_open_contract_call tr = [OpenContractCall call]) /\
  (forall call,
     filter is_open_contract_call tr = [OpenContractCall call] <->
     exists u campaign,
       user st = Some u /\
       find_campaign (campaigns st) campaignId = Some campaign /\
       owner campaign = VString (stxAddress_testnet u) /\
       confirm w (confirmationMessage campaign) = true /\
       close_call campaign campaignId = Ok call).
Proof.
  intros Hrun. apply handle_shape in Hrun
    as [(Hnone & _ & Hnot)
       | (u & campaign & call0 & thrown & finished & Hu & Hfind & Howner & Hconfirm
          & Hcall & -> & Hthrown & _ & _ & Hfinished & _)].
  - split.
    + intros call Hin.
      assert (Hf : In (OpenContractCall call) (filter is_open_contract_call tr))
        by (apply filter_In; auto).
      rewrite Hnone in Hf. destruct Hf.
    + intros call. split.
      * rewrite Hnone. discriminate.
      * intros (u & campaign & Hu & Hfind & Howner & Hconfirm & Hcall).
        destruct (Hnot u campaign call Hu Hfind Howner Hconfirm Hcall).
  - assert (Hfilter :
      filter is_open_contract_call
        ([ConfirmPrompt (confirmationMessage campaign);
          SetClosingCampaign (Some campaignId);
          OpenContractCall call0]
         ++ thrown ++ SetClosingCampaign None :: finished)%list
      = [OpenContractCall call0]).
    { cbn [app filter is_open_contract_call]. rewrite filter_app.
      cbn [filter is_open_contract_call]. now rewrite Hthrown, Hfinished. }
    split.
    + intros call Hin.
      assert (Hf : In (OpenContractCall call)
                      (filter is_open_contract_call
                         ([ConfirmPrompt (confirmationMessage campaign);
                           SetClosingCampaign (Some campaignId);
                           OpenContractCall call0]
                          ++ thrown ++ SetClosingCampaign None :: finished)%list))
        by (apply filter_In; auto).
      rewrite Hfilter in Hf. destruct Hf as [Hf | []].
      injection Hf as <-. exact Hfilter.
    + intros call. rewrite Hfilter. split.
      * intros Heq. injection Heq as <-. exists u, campaign. auto.
      * intros (u1 & c1 & Hu1 & Hfind1 & _ & _ & Hcall1).
        rewrite Hfind in Hfind1. injection Hfind1 as <-.
        rewrite Hcall in Hcall1. now injection Hcall1 as <-.
Qed.

(** X14: [handleCloseCampaign] never changes the session or the tip height,
    and when it ends the closing mark is either as it was (the attempt
    was turned down before anything was built) or cleared: a page with no
    campaign marked as closing has none marked afterwards. *)
Theorem close_releases_mark
    (st st' : Page) (campaignId : nat) (tr : list event) :
  handleCloseCampaign fuel w st campaignId = Some (st', tr) ->
  user st' = user st /\
  currentBlockHeight st' = currentBlockHeight st /\
  ((st' = st /\ filter is_open_contract_call tr = []) \/ closingCampaign st' = None) /\
  (closingCampaign st = None -> closingCampaign st' = None).
Proof.
  unfold handleCloseCampaign.
  destruct (user st) as [u | ] eqn:Hu.
  2: { intros H. injection H as <- <-. rewrite Hu. auto 10. }
  destruct (find_campaign (campaigns st) campaignId) as [campaign | ].
  2: { intros H. injection H as <- <-. rewrite Hu. auto 10. }
  destruct (negb (is_string (owner campaign) (stxAddress_testnet u))).
  { intros H. injection H as <- <-. rewrite Hu. auto 10. }
  destruct (negb (confirm w (confirmationMessage campaign))).
  { intros H. injection H as <- <-. rewrite Hu. auto 10. }
  destruct (close_call campaign campaignId) as [call | error].
  2: { intros H. injection H as <- <-. cbn. rewrite Hu. auto 10. }
  destruct (wallet w call) as [error | | txId].
  - intros H. injection H as <- <-. cbn. rewrite Hu. auto 10.
  - intros H. injection H as <- <-. cbn. rewrite Hu. auto 10.
  - destruct (onFinish fuel w _ txId) as [[st1 finished] | ] eqn:Hfinish; [ | discriminate].
    apply onFinish_opens_nothing in Hfinish as (_ & Huser & Hclosing & Hheight).
    intros H. injection H as <- <-.
    cbn [user closingCampaign currentBlockHeight setClosingCampaign] in *.
    rewrite Huser, Hheight, Hclosing, Hu. auto 10.
Qed.

(** X25: a campaign that has met its goal and whose amount text the builder
    does not read (an exponent form or [Infinity]) cannot be closed: once
    the guards have passed and the user has confirmed, the run marks the
    campaign, logs the builder's error, shows the failure notice and clears
    the mark; nothing is asked of the wallet and no status is looked up. *)
Theorem unread_amount_submits_nothing
    (st : Page) (campaignId : nat) (u : UserData) (campaign : Campaign) :
  user st = Some u ->
  find_campaign (campaigns st) campaignId = Some campaign ->
  owner campaign = VString (stxAddress_testnet u) ->
  confirm w (confirmationMessage campaign) = true ->
  goalReached campaign = true ->
  integer_literal (cap_text campaign) = false ->
  handleCloseCampaign fuel w st campaignId =
  Some (setClosingCampaign None st,
        [ConfirmPrompt (confirmationMessage campaign);
         SetClosingCampaign (Some campaignId);
         ConsoleError "Failed to finalize campaign:" (invalid_amount (cap_text campaign));
         Alert finalize_notice;
         SetClosingCampaign None]).
Proof.
  intros Hu Hfind Howner Hconfirm Hgoal Hunread. unfold handleCloseCampaign.
  apply is_string_spec in Howner. rewrite Hu, Hfind, Howner, Hconfirm.
  cbn [negb]. now rewrite close_call_cases, Hgoal, Hunread.
Qed.

End SubmitOutcome.

(** ** Order on numbers, further *)

Lemma SFltb_asym (a b : spec_float) :
  SFltb a b = true -> SFltb b a = false /\ SFleb b a = false.
Proof.
  unfold SFltb, SFleb, SFcompare.
  destruct a as [sa | sa | | sa ma ea], b as [sb | sb | | sb mb eb];
    try destruct sa; try destruct sb; try discriminate;
    try (intros _; split; reflexivity).
  - rewrite (Z.compare_antisym ea eb), (ZC4 mb ma).
    destruct (ea ?= eb)%Z; simpl; try discriminate; try (split; reflexivity).
    destruct (Pos.compare_cont Eq ma mb); simpl; try discriminate; split; reflexivity.
  - rewrite (Z.compare_antisym ea eb), (ZC4 mb ma).
    destruct (ea ?= eb)%Z; simpl; try discriminate; try (split; reflexivity).
    destruct (Pos.compare_cont Eq ma mb); simpl; try discriminate; split; reflexivity.
Qed.

(** [a < b] excludes [b < a] and [b <= a]. *)
Lemma ltb_asym (a b : float) :
  PrimFloat.ltb a b = true ->
  PrimFloat.ltb b a = false /\ PrimFloat.leb b a = false.
Proof.
  rewrite !FloatAxioms.ltb_spec, FloatAxioms.leb_spec. apply SFltb_asym.
Qed.

Lemma is_nan_no_deadline (deadline : float) :
  is_nan deadline = true -> no_deadline deadline = true.
Proof.
  intros Hnan. unfold no_deadline, to_boolean. now rewrite Hnan, orb_true_r.
Qed.

(** ** The tip height and the deadlines *)

Section TipFacts.
Context {host : Host}.
Variables (st : Page) (now : float).

(** X15: when the request for the tip height fails, [fetchTip] writes a
    warning to the console and leaves the page as it was; on a page that
    knew no height, every block-height deadline is then shown by its
    block number. *)
Theorem fetchTip_failure_shows_block_numbers (error : exn) (deadline : float) :
  currentBlockHeight st = None ->
  no_deadline deadline = false ->
  PrimFloat.ltb unixThreshold deadline = false ->
  fetchTip (Throw error) st = (st, [ConsoleWarn tip_warning error]) /\
  formatDeadlineDisplay now deadline
      (currentBlockHeight (fst (fetchTip (Throw error) st)))
    = "Block #" ++ number_to_string deadline.
Proof.
  intros Hnone Hd Hthreshold. split; [reflexivity | ].
  cbn [fetchTip tip_height bind fst]. rewrite Hnone.
  unfold formatDeadlineDisplay. now rewrite Hd, Hthreshold.
Qed.

(** X16: a tip height given as a number is stored when it is neither zero
    nor NaN, and nothing is written to the console; a block-height
    deadline at or above it is from then on shown as the estimated date,
    ten minutes per remaining block from now. *)
Theorem fetchTip_enables_estimates (info : value) (tip deadline : float) :
  nullish info = false ->
  get info "stacks_tip_height" = VNumber tip ->
  to_boolean (VNumber tip) = true ->
  no_deadline deadline = false ->
  PrimFloat.ltb unixThreshold deadline = false ->
  PrimFloat.leb tip deadline = true ->
  fetchTip (Ok info) st = (setCurrentBlockHeight (Some tip) st, []) /\
  formatDeadlineDisplay now deadline
      (currentBlockHeight (fst (fetchTip (Ok info) st)))
    = Date_toLocaleString (now + (deadline - tip) * 10 * 60 * 1000)
        ++ " (est, block " ++ number_to_string deadline ++ ")".
Proof.
  intros Hinfo Htip Htruthy Hd Hthreshold Hle.
  assert (Hfetch : fetchTip (Ok info) st = (setCurrentBlockHeight (Some tip) st, [])).
  { unfold fetchTip, tip_height, opt_member, member. cbn [bind].
    now rewrite Hinfo, Htip, Htruthy. }
  split; [exact Hfetch | ]. rewrite Hfetch. cbn [fst currentBlockHeight setCurrentBlockHeight].
  unfold formatDeadlineDisplay, can_estimate. now rewrite Hd, Hthreshold, Htruthy, Hle.
Qed.

(** A tip height that is missing or falsy (an answer without the
    field, a [null] body, a height of zero) changes nothing and writes
    nothing to the console. *)
Lemma fetchTip_ignores_falsy_tip (info : value) :
  to_boolean (opt_member info "stacks_tip_height") = false ->
  fetchTip (Ok info) st = (st, []).
Proof.
  intros Hfalsy. unfold fetchTip, tip_height. cbn [bind]. now rewrite Hfalsy.
Qed.

(** X17: a deadline that is NaN is shown as [No deadline], and a
    block-height deadline that lies below the known height is shown by
    its block number, never as an estimate, whatever the clock reads. *)
Theorem formatDeadlineDisplay_nan_and_past :
  (forall deadline height,
     is_nan deadline = true ->
     formatDeadlineDisplay now deadline height = "No deadline") /\
  (forall deadline height,
     no_deadline deadline = false ->
     PrimFloat.ltb unixThreshold deadline = false ->
     PrimFloat.ltb deadline height = true ->
     formatDeadlineDisplay now deadline (Some height)
       = "Block #" ++ number_to_string deadline).
Proof.
  split.
  - intros deadline height Hnan. unfold formatDeadlineDisplay.
    now rewrite (is_nan_no_deadline _ Hnan).
  - intros deadline height Hd Hthreshold Hpast.
    apply ltb_asym in Hpast as [_ Hle].
    unfold formatDeadlineDisplay, can_estimate.
    now rewrite Hd, Hthreshold, Hle, andb_false_r.
Qed.

End TipFacts.

(** ** What the page shows *)

Lemma find_campaign_unique (cs : list Campaign) (c : Campaign) :
  NoDup (map id cs) -> In c cs -> find_campaign cs (id c) = Some c.
Proof.
  unfold find_campaign. induction cs as [ | c0 cs IH]; intros Hnodup Hin; [destruct Hin | ].
  cbn [map] in Hnodup. inversion Hnodup as [ | x l Hnotin Hrest]; subst.
  cbn [find]. destruct Hin as [-> | Hin].
  - now rewrite Nat.eqb_refl.
  - destruct (Nat.eqb_spec (id c0) (id c)) as [Heq | _]; [ | now apply IH].
    exfalso. apply Hnotin. rewrite Heq. now apply in_map.
Qed.

Section ViewFacts.
Variable st : Page.

(** X18: without a session the page lists no campaign at all; with one,
    every campaign of the page is in exactly one of the three lists (the
    user's active ones, the user's closed ones, the others), and the three
    lengths add up to the number of campaigns. *)
Theorem campaign_lists_partition :
  (user st = None ->
   userActiveCampaigns st = [] /\ userClosedCampaigns st = [] /\
   otherCampaigns st = []) /\
  (forall u, user st = Some u ->
   (forall c,
      In c (campaigns st) ->
      (In c (userActiveCampaigns st) /\ ~ In c (userClosedCampaigns st)
         /\ ~ In c (otherCampaigns st)) \/
      (~ In c (userActiveCampaigns st) /\ In c (userClosedCampaigns st)
         /\ ~ In c (otherCampaigns st)) \/
      (~ In c (userActiveCampaigns st) /\ ~ In c (userClosedCampaigns st)
         /\ In c (otherCampaigns st))) /\
   (forall c,
      In c (userActiveCampaigns st) \/ In c (userClosedCampaigns st)
        \/ In c (otherCampaigns st) -> In c (campaigns st)) /\
   length (userActiveCampaigns st) + length (userClosedCampaigns st)
     + length (otherCampaigns st) = length (campaigns st)).
Proof.
  unfold userActiveCampaigns, userClosedCampaigns, otherCampaigns, userCampaigns.
  split.
  - intros ->. repeat split.
  - intros u ->. split; [ | split].
    + intros c Hin. rewrite !filter_In.
      destruct (owned_by u c) eqn:Hown, (active c) eqn:Hact; cbn [negb].
      * left. intuition congruence.
      * right. left. intuition congruence.
      * right. right. intuition congruence.
      * right. right. intuition congruence.
    + intros c. rewrite !filter_In. tauto.
    + rewrite filter_length. apply filter_length.
Qed.

(** X19: on a page whose campaigns have pairwise distinct ids, every card
    of the user's active campaigns has a button, and pressing it passes
    the guards of [handleCloseCampaign]: the first thing that happens is
    the confirmation prompt for that very campaign, never a notice. *)
Theorem button_passes_guards {host : Host}
    (fuel : nat) (w : World) (c : Campaign) :
  NoDup (map id (campaigns st)) ->
  In c (userActiveCampaigns st) ->
  exists b u,
    action_button st c = Some b /\ onClick b = id c /\
    user st = Some u /\
    find_campaign (campaigns st) (onClick b) = Some c /\
    owner c = VString (stxAddress_testnet u) /\
    forall st' tr,
      handleCloseCampaign fuel w st (onClick b) = Some (st', tr) ->
      hd ClearInterval tr = ConfirmPrompt (confirmationMessage c).
Proof.
  intros Hnodup Hin. unfold userActiveCampaigns, userCampaigns in Hin.
  destruct (user st) as [u | ] eqn:Hu; [ | destruct Hin].
  apply filter_In in Hin as [Hin Hactive]. apply filter_In in Hin as [Hin Howned].
  apply is_string_spec in Howned.
  pose proof (find_campaign_unique _ _ Hnodup Hin) as Hfind.
  assert (Hbutton : exists b, action_button st c = Some b /\ onClick b = id c).
  { unfold action_button. rewrite Hactive.
    destruct (successful c && negb (withdrawn c)); eexists; split; reflexivity. }
  destruct Hbutton as (b & Hb & Hclick). exists b, u. rewrite Hclick.
  repeat split; auto.
  intros st' tr Hret. unfold handleCloseCampaign in Hret.
  rewrite Hu, Hfind in Hret. apply is_string_spec in Howned.
  rewrite Howned in Hret. cbn [negb] in Hret.
  destruct (confirm w (confirmationMessage c)); cbn [negb] in Hret.
  - destruct (close_call c (id c)) as [call | error];
      [ | now injection Hret as <- <-].
    destruct (wallet w call).
    + now injection Hret as <- <-.
    + now injection Hret as <- <-.
    + destruct (onFinish _ _ _ _) as [[st1 finished] | ]; [ | discriminate].
      now injection Hret as <- <-.
  - now injection Hret as <- <-.
Qed.

(** X20: the label of the button follows the chain's flags while the
    submitted function follows the amounts.  On a page whose campaigns have
    pairwise distinct ids, take a card of the user's active campaigns for
    which no closing is under way.  Its button reads [Withdraw Funds] when
    the campaign is flagged successful and not withdrawn, and [Refund] or
    [Close] otherwise; whenever pressing it ends in a request to the
    wallet, the function asked for is [withdraw-funds] when the total has
    reached the goal and [finalize-failure], without a guarantee, when it
    has not.  So a button that reads [Refund] can submit [withdraw-funds],
    and one that reads [Withdraw Funds] can submit [finalize-failure]. *)
Theorem label_and_function_differ {host : Host}
    (fuel : nat) (w : World) (c : Campaign) (b : Button)
    (st' : Page) (tr : list event) (call : ContractCall) :
  NoDup (map id (campaigns st)) ->
  In c (userActiveCampaigns st) ->
  isClosing st c = false ->
  action_button st c = Some b ->
  handleCloseCampaign fuel w st (onClick b) = Some (st', tr) ->
  In (OpenContractCall call) tr ->
  text b = idle_label c /\
  functionName call =
    (if goalReached c then "withdraw-funds" else "finalize-failure") /\
  (goalReached c = false -> postConditions call = []).
Proof.
  intros Hnodup Hin Hclosing Hb Hrun Hopen.
  unfold userActiveCampaigns, userCampaigns in Hin.
  destruct (user st) as [u | ] eqn:Hu; [ | destruct Hin].
  apply filter_In in Hin as [Hin Hactive]. apply filter_In in Hin as [Hin _].
  pose proof (find_campaign_unique _ _ Hnodup Hin) as Hfind.
  unfold action_button in Hb. rewrite Hactive, Hclosing in Hb.
  assert (Hlabel : text b = idle_label c /\ onClick b = id c).
  { unfold idle_label. destruct (successful c && negb (withdrawn c));
      injection Hb as <-; split; reflexivity. }
  destruct Hlabel as (Hlabel & Hclick). rewrite Hclick in Hrun.
  split; [exact Hlabel | ].
  apply handle_shape in Hrun
    as [(Hnone & _ & _)
       | (u1 & c1 & call1 & thrown & finished & _ & Hfind1 & _ & _
          & Hcall & -> & Hthrown & _ & _ & Hfinished & _)].
  - assert (Hf : In (OpenContractCall call) (filter is_open_contract_call tr))
      by (apply filter_In; auto).
    rewrite Hnone in Hf. destruct Hf.
  - rewrite Hfind in Hfind1. injection Hfind1 as <-.
    assert (Hf : In (OpenContractCall call)
                    (filter is_open_contract_call
                       ([ConfirmPrompt (confirmationMessage c);
                         SetClosingCampaign (Some (id c));
                         OpenContractCall call1]
                        ++ thrown ++ SetClosingCampaign None :: finished)%list))
      by (apply filter_In; auto).
    cbn [app filter is_open_contract_call] in Hf. rewrite filter_app in Hf.
    cbn [filter is_open_contract_call] in Hf. rewrite Hthrown, Hfinished in Hf.
    destruct Hf as [Hf | []]. injection Hf as <-.
    destruct (close_call_built c (id c) call1 Hcall) as (_ & Hname & Hpcs).
    split; [exact Hname | ]. intros Hgoal. now rewrite Hpcs, Hgoal.
Qed.

(** X21: the width of a progress bar never exceeds 100, and it is 0, not
    the outcome of a division by zero, when the goal is not above zero
    (zero, negative, NaN). *)
Theorem bar_width_bounded (c : Campaign) :
  PrimFloat.ltb 100 (bar_width c) = false /\
  (PrimFloat.ltb 0 (goal c) = false -> progress c = 0%float /\ bar_width c = 0%float).
Proof.
  split.
  - unfold bar_width, Math_min.
    destruct (is_nan (progress c) || is_nan 100); [reflexivity | ].
    destruct (PrimFloat.ltb (progress c) 100) eqn:Hlt; [now apply ltb_asym in Hlt | ].
    destruct (PrimFloat.ltb 100 (progress c)) eqn:Hgt; [reflexivity | ].
    destruct (is_negative_zero (progress c)); [exact Hgt | reflexivity].
  - intros Hgoal. unfold bar_width, progress. rewrite Hgoal. split; reflexivity.
Qed.

End ViewFacts.

(** ** The further properties on examples *)

(** The shape of the trace, for a transaction that succeeds at the third
    lookup. *)
Lemma poll_clears_interval_once_witness :
  exists n,
    1 <= n <= 16 /\
    lookups "0xabc" 3 = (repeat (StatusRequest "0xabc") n ++ [ClearInterval])%list /\
    length (filter is_status_request (lookups "0xabc" 3)) = n /\
    length (filter is_clear_interval (lookups "0xabc" 3)) = 1.
Proof.
  apply (poll_clears_interval_once success_at_third "0xabc" 16 (Ok tt)
           (lookups "0xabc" 3)).
  reflexivity.
Defined.

(** The rejection, for an endpoint that fails at the third lookup. *)
Lemma poll_rejects_on_failed_lookup_witness :
  waitForTransaction 16 fails_at_third "0xabc" =
  Some (Throw (Error "Failed to fetch"),
        (repeat (StatusRequest "0xabc") 3 ++ [ClearInterval])%list).
Proof.
  apply (poll_rejects_on_failed_lookup fails_at_third "0xabc" 2 16
           (Error "Failed to fetch")).
  - intros n Hn. exists (VString "pending").
    destruct n as [ | [ | n]]; [split; reflexivity | split; reflexivity | lia].
  - reflexivity.
  - unfold maxRetries. lia.
  - lia.
Defined.

(** The resolution, for a transaction that succeeds at the third lookup. *)
Lemma poll_resolves_iff_witness :
  waitForTransaction 16 success_at_third "0xabc"
    = Some (Ok tt, lookups "0xabc" 3) <->
  exists k tx_status,
    k <= maxRetries /\
    (forall n, n < k -> pending success_at_third "0xabc" n) /\
    reported success_at_third "0xabc" k = Ok tx_status /\
    (tx_status = VString "success" \/ tx_status = VString "failed") /\
    lookups "0xabc" 3 = (repeat (StatusRequest "0xabc") (S k) ++ [ClearInterval])%list.
Proof.
  apply (poll_resolves_iff success_at_third "0xabc" 16).
  unfold maxRetries. lia.
Defined.

(** The two alerts, after a time-out. *)
Lemma onFinish_two_alerts_witness :
  exists st' tr,
    onFinish (host := sample_host) 16 (world_reporting "pending")
      (page_of alice_session (campaign_of 100 50)) "0xabc" = Some (st', tr) /\
    ((filter is_alert tr = [Alert broadcast_notice; Alert failure_notice] /\
      st' = page_of alice_session (campaign_of 100 50) /\
      filter is_read_only_call tr = []) \/
     (filter is_alert tr = [Alert broadcast_notice; Alert success_notice] /\
      loading st' = false /\ In (SetLoading true) tr /\
      user st' = user (page_of alice_session (campaign_of 100 50)))).
Proof.
  do 2 eexists. split; [reflexivity | ].
  eapply (onFinish_two_alerts (host := sample_host) 16 (world_reporting "pending")
            (page_of alice_session (campaign_of 100 50)) _ "0xabc").
  reflexivity.
Defined.

(** The one contract call, for Alice closing her campaign. *)
Lemma close_opens_only_when_authorized_witness :
  exists st' tr,
    handleCloseCampaign (host := sample_host) 16 wallet_dismissed
      (page_of alice_session (campaign_of 100 150)) 0 = Some (st', tr) /\
    filter is_open_contract_call tr
      = [OpenContractCall (withdraw_call 0 "150000000")] /\
    (forall call,
       In (OpenContractCall call) tr ->
       filter is_open_contract_call tr = [OpenContractCall call]) /\
    (forall call,
       filter is_open_contract_call tr = [OpenContractCall call] <->
       exists u campaign,
         user (page_of alice_session (campaign_of 100 150)) = Some u /\
         find_campaign (campaigns (page_of alice_session (campaign_of 100 150))) 0
           = Some campaign /\
         owner campaign = VString (stxAddress_testnet u) /\
         confirm wallet_dismissed (confirmationMessage campaign) = true /\
         close_call (host := sample_host) campaign 0 = Ok call).
Proof.
  do 2 eexists. split; [reflexivity | ].
  split; [reflexivity | ].
  eapply (close_opens_only_when_authorized (host := sample_host) 16 wallet_dismissed
            (page_of alice_session (campaign_of 100 150)) _ 0).
  reflexivity.
Defined.

(** The closing mark, for Alice closing her campaign. *)
Lemma close_releases_mark_witness :
  exists st' tr,
    handleCloseCampaign (host := sample_host) 16 (world_reporting "success")
      (page_of alice_session (campaign_of 100 150)) 0 = Some (st', tr) /\
    user st' = user (page_of alice_session (campaign_of 100 150)) /\
    currentBlockHeight st'
      = currentBlockHeight (page_of alice_session (campaign_of 100 150)) /\
    ((st' = page_of alice_session (campaign_of 100 150)
      /\ filter is_open_contract_call tr = []) \/ closingCampaign st' = None) /\
    (closingCampaign (page_of alice_session (campaign_of 100 150)) = None ->
     closingCampaign st' = None).
Proof.
  do 2 eexists. split; [reflexivity | ].
  eapply (close_releases_mark (host := sample_host) 16 (world_reporting "success")
            (page_of alice_session (campaign_of 100 150)) _ 0).
  reflexivity.
Defined.

(** The loading flag, on a chain of three campaigns. *)
Lemma fetch_brackets_loading_witness :
  exists st' tr,
    fetchAllData (host := sample_host) 4 three_campaigns empty_page = Some (st', tr) /\
    filter is_set_loading tr = [SetLoading true; SetLoading false] /\
    loading st' = false /\
    hd ClearInterval tr = SetLoading true /\
    last tr ClearInterval = SetLoading false /\
    user st' = user empty_page /\
    closingCampaign st' = closingCampaign empty_page /\
    currentBlockHeight st' = currentBlockHeight empty_page /\
    Forall (fun ev => refresh_event ev = true) tr.
Proof.
  do 2 eexists. split; [reflexivity | ].
  eapply (fetch_brackets_loading (host := sample_host) 4 three_campaigns empty_page).
  reflexivity.
Defined.

(** The statistics that do not convert, on a chain that answers [null]. *)
Lemma fetch_stats_conversion_failure_witness :
  exists st' tr,
    fetchAllData (host := sample_host) 4 stats_unreadable empty_page = Some (st', tr) /\
    campaigns st' = campaigns empty_page /\
    globalStats st' = globalStats empty_page /\
    loading st' = false /\
    In (ConsoleError fetch_error
          (TypeError "Cannot read properties of undefined or null")) tr /\
    filter is_read_only_call tr
      = map (fun fn => ReadOnlyCall fn None) stats_functions.
Proof.
  eapply (fetch_stats_conversion_failure (host := sample_host) 4 stats_unreadable
            empty_page); reflexivity.
Defined.

(** The empty list, on a chain without campaigns. *)
Lemma fetch_without_campaigns_witness :
  exists st' tr,
    fetchAllData (host := sample_host) 4 wallet_dismissed
      (page_of alice_session (campaign_of 100 150)) = Some (st', tr) /\
    campaigns st' = [] /\
    globalStats st' = {| totalRaised := 0; totalContributors := 0;
                         activeCampaigns := 0; totalCampaigns := 0 |} /\
    filter is_read_only_call tr
      = map (fun fn => ReadOnlyCall fn None) stats_functions.
Proof.
  eapply (fetch_without_campaigns (host := sample_host) 4 wallet_dismissed);
    try reflexivity.
  lia.
Defined.

(** The distinct ids, on a chain of three campaigns. *)
Lemma fetch_keeps_ids_distinct_witness :
  exists st' tr,
    fetchAllData (host := sample_host) 4 three_campaigns empty_page = Some (st', tr) /\
    NoDup (map id (campaigns st')) /\
    (campaigns st' = campaigns empty_page
     \/ StronglySorted lt (map id (campaigns st'))).
Proof.
  do 2 eexists. split; [reflexivity | ].
  eapply (fetch_keeps_ids_distinct (host := sample_host) 4 three_campaigns empty_page).
  - reflexivity.
  - constructor.
Defined.

(** Nothing dropped, on two well-formed responses. *)
Lemma decode_campaigns_keeps_primitive_witness :
  map id (fst (decode_campaigns (host := sample_host) [goal_only; optional_none]))
    = seq 0 (length [goal_only; optional_none]) /\
  length (fst (decode_campaigns (host := sample_host) [goal_only; optional_none]))
    = length [goal_only; optional_none] /\
  snd (decode_campaigns (host := sample_host) [goal_only; optional_none]) = [].
Proof.
  apply (decode_campaigns_keeps_primitive (host := sample_host)).
  repeat constructor.
Defined.

(** The blank campaign, for the answer [none]. *)
Lemma parseCampaign_blank_witness :
  parseCampaign (host := sample_host) optional_none 3 = Ok (blank_campaign 3).
Proof.
  apply (parseCampaign_blank (host := sample_host)).
  intros k. reflexivity.
Defined.

(** The invariant, on a raw campaign that carries a goal and nothing
    else. *)
Lemma parseCampaign_invariant_witness :
  exists c,
    parseCampaign (host := sample_host) goal_only 7 = Ok c /\
    id c = 7 /\ title c <> "" /\ description c <> "" /\
    (owner c = VString "" \/ to_boolean (owner c) = true).
Proof.
  eexists. split; [reflexivity | ].
  eapply (parseCampaign_invariant (host := sample_host) goal_only 7).
  reflexivity.
Defined.

(** The degraded display, for block 500 after a failed request. *)
Lemma fetchTip_failure_shows_block_numbers_witness :
  fetchTip (host := sample_host) (Throw (Error "Failed to fetch")) empty_page
    = (empty_page, [ConsoleWarn tip_warning (Error "Failed to fetch")]) /\
  formatDeadlineDisplay (host := sample_host) 0 500
      (currentBlockHeight
         (fst (fetchTip (host := sample_host) (Throw (Error "Failed to fetch"))
                 empty_page)))
    = "Block #" ++ number_to_string (host := sample_host) 500.
Proof.
  apply (fetchTip_failure_shows_block_numbers (host := sample_host) empty_page 0
           (Error "Failed to fetch") 500); reflexivity.
Defined.

(** The estimate, for block 500 seen from a tip of 400. *)
Lemma fetchTip_enables_estimates_witness :
  fetchTip (host := sample_host) (Ok info_at_400) empty_page
    = (setCurrentBlockHeight (Some 400%float) empty_page, []) /\
  formatDeadlineDisplay (host := sample_host) 0 500
      (currentBlockHeight (fst (fetchTip (host := sample_host) (Ok info_at_400) empty_page)))
    = Date_toLocaleString (Host := sample_host) (0 + (500 - 400) * 10 * 60 * 1000)
        ++ " (est, block " ++ number_to_string (host := sample_host) 500 ++ ")".
Proof.
  apply (fetchTip_enables_estimates (host := sample_host) empty_page 0 info_at_400
           400 500); reflexivity.
Defined.

(** The button of Alice's campaign. *)
Lemma button_passes_guards_witness :
  exists b u,
    action_button (page_of alice_session (campaign_of 100 150)) (campaign_of 100 150)
      = Some b /\
    onClick b = id (campaign_of 100 150) /\
    user (page_of alice_session (campaign_of 100 150)) = Some u /\
    find_campaign (campaigns (page_of alice_session (campaign_of 100 150))) (onClick b)
      = Some (campaign_of 100 150) /\
    owner (campaign_of 100 150) = VString (stxAddress_testnet u) /\
    forall st' tr,
      handleCloseCampaign (host := sample_host) 16 wallet_dismissed
        (page_of alice_session (campaign_of 100 150)) (onClick b) = Some (st', tr) ->
      hd ClearInterval tr = ConfirmPrompt (confirmationMessage (campaign_of 100 150)).
Proof.
  apply (button_passes_guards (page_of alice_session (campaign_of 100 150))
           (host := sample_host) 16 wallet_dismissed (campaign_of 100 150)).
  - constructor; [intros [] | constructor].
  - left. reflexivity.
Defined.

(** The label and the function, for a campaign that reached its goal and
    is not flagged successful, and for one that is flagged successful and
    is below its goal. *)
Lemma label_and_function_differ_witness :
  (exists b st' tr call,
     action_button (page_of alice_session (campaign_of 100 150)) (campaign_of 100 150)
       = Some b /\
     handleCloseCampaign (host := sample_host) 16 wallet_dismissed
       (page_of alice_session (campaign_of 100 150)) (onClick b) = Some (st', tr) /\
     In (OpenContractCall call) tr /\
     text b = "Refund" /\
     functionName call = "withdraw-funds" /\
     (goalReached (campaign_of 100 150) = false -> postConditions call = [])) /\
  (exists b st' tr call,
     action_button (page_of alice_session flagged_successful) flagged_successful
       = Some b /\
     handleCloseCampaign (host := sample_host) 16 wallet_dismissed
       (page_of alice_session flagged_successful) (onClick b) = Some (st', tr) /\
     In (OpenContractCall call) tr /\
     text b = "Withdraw Funds" /\
     functionName call = "finalize-failure" /\
     (goalReached flagged_successful = false -> postConditions call = [])).
Proof.
  split.
  - exists {| text := "Refund"; disabled := false; onClick := 0 |}.
    exists (page_of alice_session (campaign_of 100 150)).
    exists [ConfirmPrompt (confirmationMessage (campaign_of 100 150));
            SetClosingCampaign (Some 0);
            OpenContractCall (withdraw_call 0 "150000000");
            SetClosingCampaign None;
            ConsoleLog "Campaign finalization cancelled"].
    exists (withdraw_call 0 "150000000").
    split; [reflexivity | ]. split; [reflexivity | ].
    split; [do 2 right; left; reflexivity | ].
    apply (label_and_function_differ (page_of alice_session (campaign_of 100 150))
             (host := sample_host) 16 wallet_dismissed (campaign_of 100 150)
             {| text := "Refund"; disabled := false; onClick := 0 |}
             (page_of alice_session (campaign_of 100 150))
             [ConfirmPrompt (confirmationMessage (campaign_of 100 150));
              SetClosingCampaign (Some 0);
              OpenContractCall (withdraw_call 0 "150000000");
              SetClosingCampaign None;
              ConsoleLog "Campaign finalization cancelled"]
             (withdraw_call 0 "150000000")).
    + repeat constructor. intros [].
    + left. reflexivity.
    + reflexivity.
    + reflexivity.
    + reflexivity.
    + do 2 right. left. reflexivity.
  - exists {| text := "Withdraw Funds"; disabled := false; onClick := 0 |}.
    exists (page_of alice_session flagged_successful).
    exists [ConfirmPrompt (confirmationMessage flagged_successful);
            SetClosingCampaign (Some 0);
            OpenContractCall (failure_call 0);
            SetClosingCampaign None;
            ConsoleLog "Campaign finalization cancelled"].
    exists (failure_call 0).
    split; [reflexivity | ]. split; [reflexivity | ].
    split; [do 2 right; left; reflexivity | ].
    apply (label_and_function_differ (page_of alice_session flagged_successful)
             (host := sample_host) 16 wallet_dismissed flagged_successful
             {| text := "Withdraw Funds"; disabled := false; onClick := 0 |}
             (page_of alice_session flagged_successful)
             [ConfirmPrompt (confirmationMessage flagged_successful);
              SetClosingCampaign (Some 0);
              OpenContractCall (failure_call 0);
              SetClosingCampaign None;
              ConsoleLog "Campaign finalization cancelled"]
             (failure_call 0)).
    + repeat constructor. intros [].
    + left. reflexivity.
    + reflexivity.
    + reflexivity.
    + reflexivity.
    + do 2 right. left. reflexivity.
Defined.

(** ** The closing mark and the poll *)

Section MarkFacts.
Context {host : Host}.

Lemma split_after_quiet (head rest pre post : list event) (x : event) :
  filter is_status_request head = [] -> is_status_request x = true ->
  (head ++ rest = pre ++ x :: post)%list ->
  exists mid, pre = (head ++ mid)%list /\ rest = (mid ++ x :: post)%list.
Proof.
  intros Hquiet Hx. revert pre. induction head as [ | h head IH]; intros pre Heq.
  - exists pre. auto.
  - cbn [filter] in Hquiet.
    destruct (is_status_request h) eqn:Hh; [discriminate | ].
    destruct pre as [ | p pre]; cbn [app] in Heq.
    + injection Heq as -> _. congruence.
    + injection Heq as -> Heq. destruct (IH Hquiet pre Heq) as (mid & -> & ->).
      exists mid. auto.
Qed.

Lemma no_status_request (l pre post : list event) (x : event) :
  filter is_status_request l = [] -> is_status_request x = true ->
  l <> (pre ++ x :: post)%list.
Proof.
  intros Hnone Hx ->. rewrite filter_app in Hnone. cbn [filter] in Hnone.
  rewrite Hx in Hnone. now destruct (filter is_status_request pre).
Qed.

(** X22: the closing mark is set only for the time the wallet is asked.
    In every run of [handleCloseCampaign], what comes before a status
    lookup of the transaction changes the mark exactly twice, and in this
    order: it is set to the campaign, then it is cleared.  So the mark is
    down, and the button enabled again, before the first lookup and all
    the while the confirmation is polled. *)
Theorem mark_cleared_before_polling
    (fuel : nat) (w : World) (st st' : Page) (campaignId : nat)
    (tr pre post : list event) (txId : string) :
  handleCloseCampaign fuel w st campaignId = Some (st', tr) ->
  tr = (pre ++ StatusRequest txId :: post)%list ->
  filter is_set_closing pre =
    [SetClosingCampaign (Some campaignId); SetClosingCampaign None].
Proof.
  intros Hrun Heq. apply handle_shape in Hrun
    as [(_ & Hnone & _)
       | (u & campaign & call & thrown & finished & _ & _ & _ & _ & _
          & Htr & _ & Hquiet & Hthrown & _ & Hfinished)].
  - exfalso. eapply no_status_request; [exact Hnone | | exact Heq]. reflexivity.
  - rewrite Htr in Heq.
    assert (Hhead :
      (([ConfirmPrompt (confirmationMessage campaign);
         SetClosingCampaign (Some campaignId);
         OpenContractCall call] ++ thrown ++ [SetClosingCampaign None]) ++ finished
       = pre ++ StatusRequest txId :: post)%list).
    { rewrite <- Heq. now rewrite <- !app_assoc. }
    apply split_after_quiet in Hhead as (mid & -> & Hmid); [ | | reflexivity].
    + rewrite Hmid, filter_app in Hfinished.
      apply app_eq_nil in Hfinished as (Hmid' & _).
      rewrite !filter_app, Hmid', Hthrown. reflexivity.
    + rewrite !filter_app, Hquiet. reflexivity.
Qed.

End MarkFacts.

(** The mark and the first lookup, for Alice closing her campaign. *)
Lemma mark_cleared_before_polling_witness :
  exists st' post,
    handleCloseCampaign (host := sample_host) 16 (world_reporting "success")
      (page_of alice_session (campaign_of 100 150)) 0
      = Some (st',
              ([ConfirmPrompt (confirmationMessage (campaign_of 100 150));
                SetClosingCampaign (Some 0);
                OpenContractCall (withdraw_call 0 "150000000");
                SetClosingCampaign None;
                Alert broadcast_notice] ++ StatusRequest "0xabc" :: post)%list) /\
    filter is_set_closing
       [ConfirmPrompt (confirmationMessage (campaign_of 100 150));
        SetClosingCampaign (Some 0);
        OpenContractCall (withdraw_call 0 "150000000");
        SetClosingCampaign None;
        Alert broadcast_notice]
    = [SetClosingCampaign (Some 0); SetClosingCampaign None].
Proof.
  do 2 eexists. split; [reflexivity | ].
  eapply (mark_cleared_before_polling (host := sample_host) 16
            (world_reporting "success")
            (page_of alice_session (campaign_of 100 150)) _ 0 _ _ _ "0xabc");
    reflexivity.
Defined.

(** The run in turn, for a transaction that succeeds at the third
    lookup. *)
Lemma in_turn_run_is_poll_witness :
  iv_promise (interval_run success_at_third "0xabc" (in_turn 5)) = Some (Ok tt) /\
  iv_log (interval_run success_at_third "0xabc" (in_turn 5)) = lookups "0xabc" 3 /\
  iv_live (interval_run success_at_third "0xabc" (in_turn 5)) = false /\
  iv_waiting (interval_run success_at_third "0xabc" (in_turn 5)) = [] /\
  iv_sent (interval_run success_at_third "0xabc" (in_turn 5))
    = length (filter is_status_request (lookups "0xabc" 3)).
Proof.
  apply (in_turn_run_is_poll success_at_third "0xabc" 16 (Ok tt) (lookups "0xabc" 3) 5).
  - reflexivity.
  - cbn. lia.
Defined.

(** The run one answer behind, against an endpoint that stays pending. *)
Lemma one_behind_sends_more_witness :
  interval_run (world_reporting "pending") "0xabc" (one_behind 17)
  = {| iv_retries := 17; iv_live := false; iv_sent := 17; iv_waiting := [];
       iv_promise := Some (Throw timed_out);
       iv_log := (repeat (StatusRequest "0xabc") 17
                  ++ [ClearInterval; ClearInterval])%list |}.
Proof.
  apply (one_behind_sends_more (world_reporting "pending") "0xabc").
  intros n. exists (VString "pending"). split; reflexivity.
Defined.

(** The refused amount, for a campaign of Alice's that has raised 10^15 STX
    against a goal of 100. *)
Lemma unread_amount_submits_nothing_witness :
  cap_text (host := wide_host) (campaign_of 100 1000000000000000) = "1e+21" /\
  handleCloseCampaign (host := wide_host) 16 wallet_dismissed
    (page_of alice_session (campaign_of 100 1000000000000000)) 0 =
  Some (setClosingCampaign None
          (page_of alice_session (campaign_of 100 1000000000000000)),
        [ConfirmPrompt (confirmationMessage (campaign_of 100 1000000000000000));
         SetClosingCampaign (Some 0);
         ConsoleError "Failed to finalize campaign:"
           (invalid_amount (cap_text (host := wide_host)
                              (campaign_of 100 1000000000000000)));
         Alert finalize_notice;
         SetClosingCampaign None]).
Proof.
  split; [reflexivity | ].
  apply (unread_amount_submits_nothing (host := wide_host) 16 wallet_dismissed
           (page_of alice_session (campaign_of 100 1000000000000000)) 0
           {| stxAddress_testnet := alice |} (campaign_of 100 1000000000000000));
    reflexivity.
Defined.
